(** * The registry transport of [containerregistry.client.v2_2.docker_http_]

    A shallow embedding of [docker_http_.py]: the diagnostic decoder, the
    [Transport] class (ping, token exchange, authenticated request,
    pagination) and the helpers [ParseNextLinkHeader] and [Scheme].

    Python values are embedded as follows.
    - [str]/[unicode] objects are [string]s (byte strings; the two Python
      types coincide on ASCII text, which is all the protocol literals use).
    - the result of [json.loads] is a [json] value; a [dict] is the list of
      its items in iteration order and is looked up by key.
    - a statement that may raise is a value of [outcome]; a method that also
      reads or writes the object or talks to a collaborator is a function
      from the system state [Sys] to a new state and an [outcome].
    - the collaborators (HTTP transport, credential provider, resource name,
      [json.loads], [urllib.urlencode], [%s] formatting) are parameters of
      the development. *)

From Stdlib Require Import String Ascii List ZArith Lia Bool DecimalString.
Import ListNotations.
Open Scope string_scope.
Open Scope Z_scope.

Set Warnings "-register-all".

(** ** Python string operations *)

(** The characters that cannot be written inside a string literal. *)
Definition dquote : ascii := "034"%char.
Definition newline : ascii := "010"%char.
Definition q : string := String dquote EmptyString.
Definition nl : string := String newline EmptyString.

(** [s.startswith(pfx)] *)
Definition startswith (s pfx : string) : bool := String.prefix pfx s.

(** [s[n:]] *)
Fixpoint slice_from (n : nat) (s : string) : string :=
  match n, s with
  | O, _ => s
  | S _, EmptyString => EmptyString
  | S n', String _ s' => slice_from n' s'
  end.

(** [s.split(sep)] for a one-character separator: never the empty list. *)
Fixpoint split (sep : ascii) (s : string) : list string :=
  match s with
  | EmptyString => [EmptyString]
  | String c s' =>
      if Ascii.eqb c sep then EmptyString :: split sep s'
      else match split sep s' with
           | t :: ts => String c t :: ts
           | [] => [String c EmptyString]
           end
  end.

(** [s.lstrip(c)], [s.rstrip(c)] and [s.strip(c)] for a one-character set. *)
Fixpoint lstrip (c : ascii) (s : string) : string :=
  match s with
  | String a s' => if Ascii.eqb a c then lstrip c s' else s
  | EmptyString => EmptyString
  end.

Fixpoint rstrip (c : ascii) (s : string) : string :=
  match s with
  | EmptyString => EmptyString
  | String a s' =>
      match rstrip c s' with
      | EmptyString => if Ascii.eqb a c then EmptyString else String a EmptyString
      | r => String a r
      end
  end.

Definition strip (c : ascii) (s : string) : string := rstrip c (lstrip c s).

(** [sep.join(parts)] *)
Definition join (sep : string) (parts : list string) : string :=
  String.concat sep parts.

(** [needle in hay] on strings: substring test. *)
Fixpoint contains (needle hay : string) : bool :=
  startswith hay needle ||
  match hay with
  | EmptyString => false
  | String _ hay' => contains needle hay'
  end.

(** Truth value of a string: empty is false. *)
Definition truthy (s : string) : bool :=
  match s with EmptyString => false | _ => true end.

(** Truth value of an optional string ([None] or a [str]). *)
Definition truthy_opt (o : option string) : bool :=
  match o with Some s => truthy s | None => false end.

(** ['%d' % n] *)
Definition fmt_d (n : Z) : string := NilZero.string_of_int (Z.to_int n).

(** A dict with string keys, as the list of its items. *)
Definition dict (V : Type) := list (string * V).

Fixpoint dict_get {V} (k : string) (d : dict V) : option V :=
  match d with
  | [] => None
  | (k', v) :: d' => if String.eqb k' k then Some v else dict_get k d'
  end.

(** [d[k] = v] *)
Fixpoint dict_set {V} (k : string) (v : V) (d : dict V) : dict V :=
  match d with
  | [] => [(k, v)]
  | (k', v') :: d' =>
      if String.eqb k' k then (k, v) :: d' else (k', v') :: dict_set k v d'
  end.

(** ** Values, responses and exceptions *)

(** What [json.loads] returns. A float is kept as its literal: the client
    never computes with it. *)
Inductive json : Type :=
| JNull
| JBool (b : bool)
| JInt (n : Z)
| JFloat (lit : string)
| JString (s : string)
| JArray (xs : list json)
| JObject (items : list (string * json)).

(** The response object of the HTTP transport: a status and a header map
    with lower-case keys. *)
Record Response := mkResponse {
  status : Z;
  resp_headers : dict string
}.

(** [class Diagnostic]: wraps the decoded element of the "errors" array. *)
Record Diagnostic := mkDiagnostic { _error : json }.

Inductive exn : Type :=
| BadStateException (message : string)
| V2DiagnosticException (resp : Response) (diagnostics : list Diagnostic)
                        (message : string)
| TypeError
| AttributeError (attr : string)
| KeyError (key : string)
| ValueError
| NameError (name : string)
| CollaboratorError (what : string).

Inductive outcome (A : Type) : Type :=
| Normal (a : A)
| Raised (e : exn).
Arguments Normal {A} a.
Arguments Raised {A} e.

Definition obind {A B} (c : outcome A) (k : A -> outcome B) : outcome B :=
  match c with
  | Normal a => k a
  | Raised e => Raised e
  end.

Notation "x <~ c ;; k" := (obind c (fun x => k))
  (at level 61, c at next level, right associativity).

(** [try: body except: handler] with a bare [except]. *)
Definition try_except {A} (body handler : outcome A) : outcome A :=
  match body with
  | Normal a => Normal a
  | Raised _ => handler
  end.

Fixpoint omap {A B} (f : A -> outcome B) (l : list A) : outcome (list B) :=
  match l with
  | [] => Normal []
  | a :: l' => b <~ f a ;; bs <~ omap f l' ;; Normal (b :: bs)
  end.

(** *** Python operations on decoded JSON *)

(** [o.get(k, default)]: only a dict has the method. *)
Definition py_get (o : json) (k : string) (default : json) : outcome json :=
  match o with
  | JObject items =>
      Normal (match dict_get k items with Some v => v | None => default end)
  | _ => Raised (AttributeError "get")
  end.

(** [for d in v]: a list gives its elements, a dict its keys, a string its
    characters; anything else is not iterable. *)
Definition py_iter (v : json) : outcome (list json) :=
  match v with
  | JArray xs => Normal xs
  | JObject items => Normal (map (fun kv => JString (fst kv)) items)
  | JString s =>
      Normal (map (fun c => JString (String c EmptyString))
                  (list_ascii_of_string s))
  | _ => Raised TypeError
  end.

Definition json_is_str (v : json) (s : string) : bool :=
  match v with
  | JString t => String.eqb t s
  | _ => false
  end.

(** [k in w] for a string [k] *)
Definition py_contains (k : string) (w : json) : outcome bool :=
  match w with
  | JObject items => Normal (existsb (fun kv => String.eqb (fst kv) k) items)
  | JArray xs => Normal (existsb (fun x => json_is_str x k) xs)
  | JString s => Normal (contains k s)
  | _ => Raised TypeError
  end.

(** [w[k]] for a string [k] *)
Definition py_getitem (w : json) (k : string) : outcome json :=
  match w with
  | JObject items =>
      match dict_get k items with
      | Some v => Normal v
      | None => Raised (KeyError k)
      end
  | _ => Raised TypeError
  end.

(** ** Module constants *)

Definition PULL := "pull".
Definition PUSH := "push,pull".
Definition DELETE := PUSH.
Definition CATALOG := "catalog".
Definition ACTIONS : list string := [PULL; PUSH; DELETE; CATALOG].

Definition UNAUTHORIZED : Z := 401.
Definition OK : Z := 200.

Definition _CHALLENGE := "Bearer ".
Definition _REALM_PFX := "realm=".
Definition _SERVICE_PFX := "service=".

(** An attribute of a challenge as it is written on the wire: the key, an
    equals sign and the value between double quotes. *)
Definition attr (key value : string) : string :=
  key ++ "=" ++ q ++ value ++ q.

(** ** Diagnostic accessors *)

Definition code (d : Diagnostic) : outcome json := py_get (_error d) "code" JNull.
Definition message (d : Diagnostic) : outcome json := py_get (_error d) "message" JNull.
Definition detail (d : Diagnostic) : outcome json := py_get (_error d) "detail" JNull.

(** [_CheckState(predicate, message)] *)
Definition _CheckState (predicate : bool) (message : option string) : outcome unit :=
  if negb predicate
  then Raised (BadStateException
                 (if truthy_opt message
                  then match message with Some m => m | None => "Unknown" end
                  else "Unknown"))
  else Normal tt.

(** [Scheme(endpoint)] *)
Definition Scheme (endpoint : string) : string :=
  if startswith endpoint "localhost:" then "http" else "https".

(** ** The regular expression of [ParseNextLinkHeader]

    A backtracking matcher for the fragment of [re] the pattern uses:
    literal characters, the greedy repetitions [.*], [.+] and [\s*], and one
    capturing group. Alternatives are tried in the order [re] tries them
    (longest repetition first), so the captured text is the one [re.match]
    reports. *)

Inductive cclass := Dot | Space.

Inductive atom :=
| Chr (c : ascii)
| Star (k : cclass)
| Plus (k : cclass)
| GroupOpen
| GroupClose.

(** [.] is any character but a newline; [\s] is [ \t\n\r\f\v]. *)
Definition in_class (k : cclass) (c : ascii) : bool :=
  match k with
  | Dot => negb (Ascii.eqb c newline)
  | Space =>
      let n := nat_of_ascii c in
      (Nat.eqb n 32 || (Nat.leb 9 n && Nat.leb n 13))%bool
  end.

Record capture := mkCapture {
  cap_open : option string;   (* input left when the group was opened *)
  cap_text : option string    (* text of the group once closed *)
}.

(** The first [n] characters of [s]. *)
Fixpoint take (n : nat) (s : string) : string :=
  match n, s with
  | S n', String c s' => String c (take n' s')
  | _, _ => EmptyString
  end.

Definition close_group (cap : capture) (rest : string) : capture :=
  match cap_open cap with
  | Some start =>
      mkCapture (cap_open cap)
                (Some (take (String.length start - String.length rest) start))
  | None => cap
  end.

(** Greedy repetition of a character class followed by the continuation
    [k]: take one more character if that leads to a match, else stop here. *)
Fixpoint star {R} (p : ascii -> bool) (k : string -> option R) (s : string)
  : option R :=
  match s with
  | String c s' =>
      if p c then
        match star p k s' with
        | Some r => Some r
        | None => k s
        end
      else k s
  | EmptyString => k s
  end.

Fixpoint run (pat : list atom) (cap : capture) (s : string) : option capture :=
  match pat with
  | [] => Some cap
  | Chr c :: pat' =>
      match s with
      | String c' s' => if Ascii.eqb c' c then run pat' cap s' else None
      | EmptyString => None
      end
  | Star k :: pat' => star (in_class k) (run pat' cap) s
  | Plus k :: pat' =>
      match s with
      | String c s' =>
          if in_class k c then star (in_class k) (run pat' cap) s' else None
      | EmptyString => None
      end
  | GroupOpen :: pat' => run pat' (mkCapture (Some s) (cap_text cap)) s
  | GroupClose :: pat' => run pat' (close_group cap s) s
  end.

Definition lit (s : string) : list atom := map Chr (list_ascii_of_string s).

(** [r'.*<(.+)>;\s*rel="next".*'] *)
Definition next_link_pattern : list atom :=
  [Star Dot] ++ lit "<" ++ [GroupOpen; Plus Dot; GroupClose] ++ lit ">;" ++
  [Star Space] ++ lit ("rel=" ++ q ++ "next" ++ q) ++ [Star Dot].

(** [re.match(pattern, s)] followed by [m.group(1)]; [None] when there is
    no match. *)
Definition re_match_group1 (pat : list atom) (s : string) : option string :=
  match run pat (mkCapture None None) s with
  | Some cap => cap_text cap
  | None => None
  end.

(** [ParseNextLinkHeader(resp)] *)
Definition ParseNextLinkHeader (resp : Response) : option string :=
  let link := dict_get "link" (resp_headers resp) in
  if negb (truthy_opt link) then None
  else
    match link with
    | Some link => re_match_group1 next_link_pattern link
    | None => None
    end.

(** ** Collaborators and system state *)

(** A request handed to [transport.request(url, method, body=, headers=)]. *)
Record http_request := mkRequest {
  url : string;
  method : string;
  body : option string;
  headers : dict string
}.

(** The structured name of the resource: its registry host and its
    [scope(action)] method. *)
Record Name := mkName {
  registry : string;
  scope : string -> string
}.

(** [v2_2_creds.Bearer(token)] *)
Record Bearer := mkBearer { bearer_token : json }.

(** What a collaborator answers: a value, or an exception of its own. *)
Inductive reply (A : Type) : Type :=
| Replied (a : A)
| Failed (what : string).
Arguments Replied {A} a.
Arguments Failed {A} what.

(** The attributes of a [Transport] object. [_realm], [_service] and
    [_bearer_creds] are not assigned by [__init__] itself: [None] stands for
    an attribute that does not exist yet. [_basic_creds] and [_transport]
    are the collaborators below; [_lock] guards the single assignment of
    [_bearer_creds] and has no effect on a sequential run. *)
Record Transport := mkTransport {
  _name : Name;
  _action : string;
  _realm : option string;
  _service : option string;
  _bearer_creds : option Bearer
}.

(** Where in the class the HTTP transport is invoked. *)
Inductive site := InPing | InRefresh | InRequest.

(** The log of a run: every invocation of the HTTP transport, with the
    credential slot of the object at that moment, and every entry into
    [_Refresh]. *)
Inductive event :=
| HttpCall (at_site : site) (req : http_request) (cur : option Bearer)
| RefreshCall.

Definition is_refresh (ev : event) : bool :=
  match ev with RefreshCall => true | _ => false end.

Definition is_http (ev : event) : bool :=
  match ev with HttpCall _ _ _ => true | _ => false end.

Definition is_attempt (ev : event) : bool :=
  match ev with HttpCall InRequest _ _ => true | _ => false end.

Definition count (p : event -> bool) (t : list event) : nat :=
  List.length (filter p t).

(** ** Test doubles

    Concrete collaborators for the examples: a decoder for the JSON fragment
    the examples use (no floats, no [\u] escapes), a scripted HTTP transport
    that answers from a queue, and a fixed Basic credential. The theorems
    below hold for every collaborator; these are only instances at which
    they are run. *)

Definition is_json_ws (c : ascii) : bool :=
  let n := nat_of_ascii c in
  (Nat.eqb n 32 || Nat.eqb n 9 || Nat.eqb n 10 || Nat.eqb n 13)%bool.

Fixpoint skip_ws (s : string) : string :=
  match s with
  | String c s' => if is_json_ws c then skip_ws s' else s
  | EmptyString => s
  end.

Definition is_digit (c : ascii) : bool :=
  let n := nat_of_ascii c in (Nat.leb 48 n && Nat.leb n 57)%bool.

Definition unescape (c : ascii) : option ascii :=
  if Ascii.eqb c dquote then Some dquote
  else if Ascii.eqb c "\" then Some "\"%char
  else if Ascii.eqb c "/" then Some "/"%char
  else if Ascii.eqb c "n" then Some newline
  else if Ascii.eqb c "t" then Some "009"%char
  else if Ascii.eqb c "r" then Some "013"%char
  else None.

(** The text of a string literal after its opening quote, and what follows
    the closing quote. *)
Fixpoint string_body (s : string) : option (string * string) :=
  match s with
  | EmptyString => None
  | String c s' =>
      if Ascii.eqb c dquote then Some (EmptyString, s')
      else if Nat.ltb (nat_of_ascii c) 32 then None
      else if Ascii.eqb c "\" then
        match s' with
        | String e s'' =>
            match unescape e, string_body s'' with
            | Some ch, Some (t, r) => Some (String ch t, r)
            | _, _ => None
            end
        | EmptyString => None
        end
      else
        match string_body s' with
        | Some (t, r) => Some (String c t, r)
        | None => None
        end
  end.

Fixpoint digits (s : string) (acc : Z) : Z * string :=
  match s with
  | String c s' =>
      if is_digit c then digits s' (10 * acc + Z.of_nat (nat_of_ascii c - 48))
      else (acc, s)
  | EmptyString => (acc, s)
  end.

Definition starts_with_digit (s : string) : bool :=
  match s with String c _ => is_digit c | EmptyString => false end.

(** An integer literal: an optional sign, then a single zero or digits
    that do not start with zero; not followed by a fraction or an exponent. *)
Definition integer (s : string) : option (Z * string) :=
  let '(neg, s1) :=
    match s with
    | String c s' => if Ascii.eqb c "-" then (true, s') else (false, s)
    | EmptyString => (false, s)
    end in
  if negb (starts_with_digit s1) then None
  else if (startswith s1 "0" && starts_with_digit (slice_from 1 s1))%bool then None
  else
    let '(n, r) := digits s1 0 in
    if (startswith r "." || startswith r "e" || startswith r "E")%bool then None
    else Some (if neg : bool then - n else n, r).

Definition dict_of_items {V} (items : list (string * V)) : dict V :=
  fold_left (fun d kv => dict_set (fst kv) (snd kv) d) items [].

Fixpoint decode_value (fuel : nat) (s : string) : option (json * string) :=
  match fuel with
  | O => None
  | S fuel' =>
      let s := skip_ws s in
      if startswith s "null" then Some (JNull, slice_from 4 s)
      else if startswith s "true" then Some (JBool true, slice_from 4 s)
      else if startswith s "false" then Some (JBool false, slice_from 5 s)
      else if startswith s q then
        match string_body (slice_from 1 s) with
        | Some (t, r) => Some (JString t, r)
        | None => None
        end
      else if startswith s "[" then
        if startswith (skip_ws (slice_from 1 s)) "]"
        then Some (JArray [], slice_from 1 (skip_ws (slice_from 1 s)))
        else match decode_elements fuel' (slice_from 1 s) with
             | Some (xs, r) => Some (JArray xs, r)
             | None => None
             end
      else if startswith s "{" then
        if startswith (skip_ws (slice_from 1 s)) "}"
        then Some (JObject [], slice_from 1 (skip_ws (slice_from 1 s)))
        else match decode_members fuel' (slice_from 1 s) with
             | Some (items, r) => Some (JObject (dict_of_items items), r)
             | None => None
             end
      else
        match integer s with
        | Some (n, r) => Some (JInt n, r)
        | None => None
        end
  end
with decode_elements (fuel : nat) (s : string) : option (list json * string) :=
  match fuel with
  | O => None
  | S fuel' =>
      match decode_value fuel' s with
      | Some (v, r) =>
          let r := skip_ws r in
          if startswith r "]" then Some ([v], slice_from 1 r)
          else if startswith r "," then
            match decode_elements fuel' (slice_from 1 r) with
            | Some (vs, r') => Some (v :: vs, r')
            | None => None
            end
          else None
      | None => None
      end
  end
with decode_members (fuel : nat) (s : string)
  : option (list (string * json) * string) :=
  match fuel with
  | O => None
  | S fuel' =>
      let s := skip_ws s in
      if negb (startswith s q) then None
      else
        match string_body (slice_from 1 s) with
        | Some (k, r) =>
            let r := skip_ws r in
            if negb (startswith r ":") then None
            else
              match decode_value fuel' (slice_from 1 r) with
              | Some (v, r) =>
                  let r := skip_ws r in
                  if startswith r "}" then Some ([(k, v)], slice_from 1 r)
                  else if startswith r "," then
                    match decode_members fuel' (slice_from 1 r) with
                    | Some (items, r') => Some ((k, v) :: items, r')
                    | None => None
                    end
                  else None
              | None => None
              end
        | None => None
        end
  end.

Definition decode (s : string) : option json :=
  match decode_value (2 * String.length s + 2) s with
  | Some (v, r) =>
      match skip_ws r with
      | EmptyString => Some v
      | _ => None
      end
  | None => None
  end.

(** ['%s' % v] on strings and scalars; containers are abbreviated. *)
Definition show (v : json) : string :=
  match v with
  | JNull => "None"
  | JBool true => "True"
  | JBool false => "False"
  | JInt n => fmt_d n
  | JFloat lit_ => lit_
  | JString s => s
  | JArray _ => "[...]"
  | JObject _ => "{...}"
  end.

Definition show_response (r : Response) : string :=
  "{'status': '" ++ fmt_d (status r) ++ "'}".

(** Query strings for keys and values that need no quoting. *)
Definition plain_urlencode (d : dict string) : string :=
  join "&" (map (fun kv => fst kv ++ "=" ++ snd kv) d).

(** A transport that answers from a queue of prepared responses. *)
Definition script := list (Response * string).

Definition scripted (req : http_request) (e : script)
  : script * reply (Response * string) :=
  match e with
  | r :: rest => (rest, Replied r)
  | [] => ([], Failed "no response left")
  end.

Definition fixed_basic (e : script) : script * reply string :=
  (e, Replied "Basic dXNlcjpwYXNz").

Definition agent : string := "//containerregistry/client:test".

Definition repo (action : string) : string :=
  "repository:library/busybox:" ++ action.

Definition busybox : Name := mkName "registry.example.com" repo.

(** Sample answers of the registry and of the token endpoint. *)
Definition token_body : string :=
  "{" ++ q ++ "token" ++ q ++ ":" ++ q ++ "abc123" ++ q ++ "}".

Definition no_token_body : string :=
  "{" ++ q ++ "access" ++ q ++ ":" ++ q ++ "abc123" ++ q ++ "}".

Definition unauthorized : Response * string := (mkResponse 401 [], "denied").

Definition token_reply : Response * string := (mkResponse 200 [], token_body).

Definition ok_reply : Response * string :=
  (mkResponse 200 [], "{" ++ q ++ "ok" ++ q ++ ":true}").

Definition challenge_reply (challenge : string) : Response * string :=
  (mkResponse 401 [("www-authenticate", challenge)], EmptyString).

(** The error body of the spec, and its decoded [errors] element. *)
Definition error_body : string :=
  "{" ++ q ++ "errors" ++ q ++ ":[{" ++ q ++ "code" ++ q ++ ":" ++ q ++ "X" ++ q
  ++ "," ++ q ++ "message" ++ q ++ ":" ++ q ++ "m" ++ q
  ++ "," ++ q ++ "detail" ++ q ++ ":" ++ q ++ "d" ++ q ++ "}]}".

Definition error_fields : list (string * json) :=
  [("code", JString "X"); ("message", JString "m"); ("detail", JString "d")].

Definition auth_realm : string := "https://auth.example.com/token".

(** An object as the constructor leaves it, holding the token [old]. *)
Definition authed : Transport :=
  mkTransport busybox PULL (Some auth_realm) (Some "registry.example.com")
              (Some (mkBearer (JString "old"))).

(** An object as [__init__] has it before the ping. *)
Definition fresh : Transport := mkTransport busybox PULL None None None.

Definition old_creds : Bearer := mkBearer (JString "old").
Definition new_creds : Bearer := mkBearer (JString "abc123").

(** Challenges: both attributes in either order, the service after a
    space, no realm, no service. *)
Definition challenge_realm_service : string :=
  _CHALLENGE ++ attr "realm" auth_realm ++ "," ++ attr "service" "svc".

Definition challenge_service_realm : string :=
  _CHALLENGE ++ attr "service" "svc" ++ "," ++ attr "realm" auth_realm.

Definition challenge_spaced : string :=
  _CHALLENGE ++ attr "realm" auth_realm ++ ", " ++ attr "service" "svc".

Definition challenge_no_realm : string :=
  _CHALLENGE ++ attr "service" "svc".

Definition challenge_no_service : string :=
  _CHALLENGE ++ attr "realm" auth_realm.

Definition prev_link : string :=
  "<https://x/y?page=1>; rel=" ++ q ++ "prev" ++ q.

Definition manifest_url : string :=
  "https://registry.example.com/v2/library/busybox/manifests/latest".

(** Two pages of a catalog, the first naming the second, and an error
    answer with the error body of the spec. *)
Definition catalog_url : string := "https://registry.example.com/v2/_catalog?n=1".

Definition catalog_next : string :=
  "https://registry.example.com/v2/_catalog?n=1&last=a".

Definition page_one : Response * string :=
  (mkResponse 200 [("link", "<" ++ catalog_next ++ ">; rel=" ++ q ++ "next" ++ q)],
   "{" ++ q ++ "repositories" ++ q ++ ":[" ++ q ++ "a" ++ q ++ "]}").

Definition page_two : Response * string :=
  (mkResponse 200 [],
   "{" ++ q ++ "repositories" ++ q ++ ":[" ++ q ++ "b" ++ q ++ "]}").

Definition not_found : Response * string := (mkResponse 404 [], error_body).

(** The object the constructor returns against the sample registry. *)
Definition constructed : Transport :=
  mkTransport busybox PULL (Some auth_realm) (Some "svc") (Some new_creds).

(** An error body whose [errors] array holds a number. *)
Definition number_error_body : string := "{" ++ q ++ "errors" ++ q ++ ":[7]}".

(** A token endpoint that answers 200 with the JSON value [null]. *)
Definition null_reply : Response * string := (mkResponse 200 [], "null").

Section Registry.

(** The state of everything outside the object: the remote registry behind
    the HTTP transport and the credential source. *)
Variable Env : Type.

(** [self._transport.request] *)
Variable transport_request : http_request -> Env -> Env * reply (Response * string).

(** [self._basic_creds.Get()] *)
Variable basic_creds_Get : Env -> Env * reply string.

(** [json.loads]; [None] when it raises [ValueError]. *)
Variable json_loads : string -> option json.

(** [urllib.urlencode] *)
Variable urlencode : dict string -> string.

(** ['%s' % v] on a decoded value and on a response object. *)
Variable py_str : json -> string.
Variable resp_str : Response -> string.

(** [docker_name.USER_AGENT] *)
Variable USER_AGENT : string.

(** Modelled from the spec: [Bearer.Get] of the module [docker_creds], which
    is not part of the sources at hand. The spec gives the header value as
    [Authorization: Bearer <token>]. *)
Definition Bearer_Get (b : Bearer) : string :=
  "Bearer " ++ py_str (bearer_token b).

Record Sys := mkSys {
  this : Transport;
  env : Env;
  trace : list event
}.

Definition M (A : Type) : Type := Sys -> Sys * outcome A.

Definition ret {A} (a : A) : M A := fun s => (s, Normal a).

Definition raise {A} (e : exn) : M A := fun s => (s, Raised e).

Definition bind {A B} (c : M A) (k : A -> M B) : M B :=
  fun s =>
    match c s with
    | (s', Normal a) => k a s'
    | (s', Raised e) => (s', Raised e)
    end.

Definition lift {A} (c : outcome A) : M A := fun s => (s, c).

Notation "x <- c ;; k" := (bind c (fun x => k))
  (at level 61, c at next level, right associativity).
Notation "c ;; k" := (bind c (fun _ => k))
  (at level 61, right associativity).

Definition log (ev : event) : M unit :=
  fun s => (mkSys (this s) (env s) (trace s ++ [ev]), Normal tt).

(** [self.<attr>] for an attribute that may not exist. *)
Definition getattr {A} (field : Transport -> option A) (attr : string) : M A :=
  fun s =>
    match field (this s) with
    | Some a => (s, Normal a)
    | None => (s, Raised (AttributeError attr))
    end.

Definition get_self : M Transport := fun s => (s, Normal (this s)).

Definition set_self (f : Transport -> Transport) : M unit :=
  fun s => (mkSys (f (this s)) (env s) (trace s), Normal tt).

Definition set_realm (v : string) : M unit :=
  set_self (fun t => mkTransport (_name t) (_action t) (Some v)
                                 (_service t) (_bearer_creds t)).

Definition set_service (v : string) : M unit :=
  set_self (fun t => mkTransport (_name t) (_action t) (_realm t)
                                 (Some v) (_bearer_creds t)).

Definition set_bearer_creds (b : Bearer) : M unit :=
  set_self (fun t => mkTransport (_name t) (_action t) (_realm t)
                                 (_service t) (Some b)).

Definition of_reply {A} (r : reply A) : outcome A :=
  match r with
  | Replied a => Normal a
  | Failed what => Raised (CollaboratorError what)
  end.

(** One invocation of the HTTP transport, logged. *)
Definition http (at_site : site) (req : http_request) : M (Response * string) :=
  fun s =>
    let '(e', r) := transport_request req (env s) in
    (mkSys (this s) e'
           (trace s ++ [HttpCall at_site req (_bearer_creds (this s))]),
     of_reply r).

Definition basic_Get : M string :=
  fun s =>
    let '(e', r) := basic_creds_Get (env s) in
    (mkSys (this s) e' (trace s), of_reply r).

(** [resp[key]] *)
Definition resp_getitem (resp : Response) (key : string) : outcome string :=
  match dict_get key (resp_headers resp) with
  | Some v => Normal v
  | None => Raised (KeyError key)
  end.

(** ** The diagnostic decoder *)

Definition loads (content : string) : outcome json :=
  match json_loads content with
  | Some o => Normal o
  | None => Raised ValueError
  end.

(** [_DiagnosticsFromContent(content)] *)
Definition _DiagnosticsFromContent (content : string) : outcome (list Diagnostic) :=
  try_except
    (o <~ loads content ;;
     errors <~ py_get o "errors" (JArray []) ;;
     ds <~ py_iter errors ;;
     Normal (map mkDiagnostic ds))
    (Normal [mkDiagnostic (JObject [("code", JString "UNKNOWN");
                                    ("message", JString content)])]).

(** [V2DiagnosticException(resp, content)]: the constructor decodes the body
    and formats one line per diagnostic, reading [d.message] and [d.detail].
    The result is the exception object, unless the constructor itself
    raises. *)
Definition new_V2DiagnosticException (resp : Response) (content : string)
  : outcome exn :=
  diagnostics <~ _DiagnosticsFromContent content ;;
  lines <~ omap (fun d => m <~ message d ;;
                          dt <~ detail d ;;
                          Normal (py_str m ++ ": " ++ py_str dt))
                diagnostics ;;
  Normal (V2DiagnosticException resp diagnostics
            (join nl (("response: " ++ resp_str resp) :: lines))).

(** [raise V2DiagnosticException(resp, content)] *)
Definition raise_V2DiagnosticException {A} (resp : Response) (content : string)
  : M A :=
  e <- lift (new_V2DiagnosticException resp content) ;;
  raise e.

(** ** class Transport *)

(** The body of [for t in tokens] in [_Ping]. *)
Fixpoint _Ping_tokens (tokens : list string) : M unit :=
  match tokens with
  | [] => ret tt
  | t :: rest =>
      (if startswith t _REALM_PFX then
         set_realm (strip dquote (slice_from (String.length _REALM_PFX) t))
       else if startswith t _SERVICE_PFX then
         set_service (strip dquote (slice_from (String.length _SERVICE_PFX) t))
       else ret tt) ;;
      _Ping_tokens rest
  end.

Definition ping_request (name : Name) : http_request :=
  mkRequest (Scheme (registry name) ++ "://" ++ registry name ++ "/v2/")
            "GET" None
            [("content-type", "application/json"); ("user-agent", USER_AGENT)].

(** [Transport._Ping] *)
Definition _Ping : M unit :=
  self <- get_self ;;
  rc <- http InPing (ping_request (_name self)) ;;
  let resp := fst rc in
  lift (_CheckState (status resp =? UNAUTHORIZED)
          (Some ("Unexpected status: " ++ fmt_d (status resp)))) ;;
  challenge <- lift (resp_getitem resp "www-authenticate") ;;
  lift (_CheckState (startswith challenge _CHALLENGE)
          (Some ("Unexpected " ++ q ++ "www-authenticate" ++ q ++ " header: "
                 ++ challenge))) ;;
  set_service (registry (_name self)) ;;
  let tokens := split "," (slice_from (String.length _CHALLENGE) challenge) in
  _Ping_tokens tokens ;;
  realm <- getattr _realm "_realm" ;;
  lift (_CheckState (truthy realm)
          (Some ("Expected a " ++ q ++ _REALM_PFX ++ q ++ " in " ++ q ++
                 "www-authenticate" ++ q ++ " header: " ++ challenge))).

(** [Transport._Scope] *)
Definition _Scope (self : Transport) : string :=
  scope (_name self) (_action self).

Definition refresh_request (auth scope_ service realm : string) : http_request :=
  mkRequest (realm ++ "?" ++ urlencode [("scope", scope_); ("service", service)])
            "GET" None
            [("content-type", "application/json"); ("user-agent", USER_AGENT);
             ("Authorization", auth)].

(** [Transport._Refresh] *)
Definition _Refresh : M unit :=
  log RefreshCall ;;
  auth <- basic_Get ;;
  self <- get_self ;;
  service <- getattr _service "_service" ;;
  realm <- getattr _realm "_realm" ;;
  rc <- http InRefresh (refresh_request auth (_Scope self) service realm) ;;
  let '(resp, content) := rc in
  lift (_CheckState (status resp =? OK)
          (Some ("Bad status during token exchange: " ++ fmt_d (status resp)
                 ++ nl ++ content))) ;;
  wrapper_object <- lift (loads content) ;;
  has_token <- lift (py_contains "token" wrapper_object) ;;
  lift (_CheckState has_token (Some ("Malformed JSON response: " ++ content))) ;;
  token <- lift (py_getitem wrapper_object "token") ;;
  set_bearer_creds (mkBearer token).

(** [Transport.__init__]: the object exists for the caller only when the
    constructor returns; the state it returns then holds the object. *)
Definition __init__ (name : Name) (action : string) : M unit :=
  set_self (fun _ => mkTransport name action None None None) ;;
  lift (_CheckState (existsb (String.eqb action) ACTIONS)
          (Some ("Invalid action supplied to docker_http.Transport: " ++ action))) ;;
  _Ping ;;
  _Refresh.

(** [if not method: method = 'GET' if not body else 'PUT'] *)
Definition default_method (method body : option string) : string :=
  if negb (truthy_opt method) then
    (if negb (truthy_opt body) then "GET" else "PUT")
  else match method with Some m => m | None => EmptyString end.

(** The [headers] dict built on each turn of the loop of [Request]. *)
Definition request_headers (auth method : string) (body content_type : option string)
           (accepted_mimes : option (list string)) : dict string :=
  let headers := [("Authorization", auth); ("user-agent", USER_AGENT)] in
  let headers :=
    if truthy_opt body then
      dict_set "content-type"
               (if truthy_opt content_type
                then match content_type with Some c => c | None => EmptyString end
                else "application/json")
               headers
    else headers in
  let headers :=
    match accepted_mimes with
    | Some mimes => dict_set "Accept" (join "," mimes) headers
    | None => headers
    end in
  let headers :=
    if (existsb (String.eqb method) ["POST"; "PUT"] && negb (truthy_opt body))%bool
    then dict_set "content-length" "0" headers
    else headers in
  headers.

(** [for retry in [True, False]]: [last] is the pair [resp, content] bound
    by the previous turn, if any. *)
Fixpoint Request_loop (retries : list bool) (last : option (Response * string))
         (url_ method_ : string) (body_ content_type : option string)
         (accepted_mimes : option (list string))
  : M (option (Response * string)) :=
  match retries with
  | [] => ret last
  | retry :: rest =>
      creds <- getattr _bearer_creds "_bearer_creds" ;;
      let headers_ := request_headers (Bearer_Get creds) method_ body_
                                      content_type accepted_mimes in
      rc <- http InRequest (mkRequest url_ method_ body_ headers_) ;;
      if negb (status (fst rc) =? UNAUTHORIZED) then ret (Some rc)
      else
        (if retry : bool then _Refresh else ret tt) ;;
        Request_loop rest (Some rc) url_ method_ body_ content_type accepted_mimes
  end.

(** [resp.status not in accepted_codes] *)
Definition status_not_in (resp : Response) (accepted_codes : option (list Z))
  : outcome bool :=
  match accepted_codes with
  | Some codes => Normal (negb (existsb (Z.eqb (status resp)) codes))
  | None => Raised TypeError
  end.

(** The statements of [Request] after the loop. *)
Definition Request_check (accepted_codes : option (list Z))
           (last : option (Response * string)) : M (Response * string) :=
  match last with
  | None => raise (NameError "resp")
  | Some (resp, content) =>
      unaccepted <- lift (status_not_in resp accepted_codes) ;;
      if unaccepted : bool then raise_V2DiagnosticException resp content
      else ret (resp, content)
  end.

(** [Transport.Request] *)
Definition Request (url_ : string) (accepted_codes : option (list Z))
           (method_ body_ content_type : option string)
           (accepted_mimes : option (list string)) : M (Response * string) :=
  let method_ := default_method method_ body_ in
  last <- Request_loop [true; false] None url_ method_ body_ content_type
                       accepted_mimes ;;
  Request_check accepted_codes last.

(** *** [Transport.PaginatedRequest]

    A generator: its frame holds the arguments and the point where it is
    suspended. [next] runs it up to the following [yield] or to its end. *)

Inductive gen_pc :=
| AtStart
| AtYield (resp : Response)
| Finished.

Record generator := mkGenerator {
  g_url : string;
  g_accepted_codes : option (list Z);
  g_method : option string;
  g_body : option string;
  g_content_type : option string;
  g_pc : gen_pc
}.

Inductive gen_step :=
| Yielded (page : Response * string)
| StopIteration.

Definition PaginatedRequest (url_ : string) (accepted_codes : option (list Z))
           (method_ body_ content_type : option string) : generator :=
  mkGenerator url_ accepted_codes method_ body_ content_type AtStart.

Definition at_pc (g : generator) (pc : gen_pc) : generator :=
  mkGenerator (g_url g) (g_accepted_codes g) (g_method g) (g_body g)
              (g_content_type g) pc.

(** [while next_page:] down to the [yield]. *)
Definition PaginatedRequest_while (g : generator) (next_page : option string)
  : M (generator * gen_step) :=
  if truthy_opt next_page then
    page <- Request (match next_page with Some u => u | None => EmptyString end)
                    (g_accepted_codes g) (g_method g) (g_body g)
                    (g_content_type g) None ;;
    ret (at_pc g (AtYield (fst page)), Yielded page)
  else ret (at_pc g Finished, StopIteration).

(** [next(gen)] *)
Definition next (g : generator) : M (generator * gen_step) :=
  match g_pc g with
  | AtStart => PaginatedRequest_while g (Some (g_url g))
  | AtYield resp => PaginatedRequest_while g (ParseNextLinkHeader resp)
  | Finished => ret (g, StopIteration)
  end.

(** [list(gen)], for at most [fuel] pages; [None] when pages remain. *)
Fixpoint pages (fuel : nat) (g : generator)
  : M (option (list (Response * string))) :=
  match fuel with
  | O => ret None
  | S fuel' =>
      r <- next g ;;
      match r with
      | (_, StopIteration) => ret (Some [])
      | (g', Yielded page) =>
          more <- pages fuel' g' ;;
          ret (option_map (cons page) more)
      end
  end.

(** [Transport(name, creds, transport, action)] as the caller sees it: the
    new object when [__init__] returns, its exception otherwise, together
    with the outside world and the log of the calls made. *)
Definition Transport_new (name : Name) (action : string) (e : Env)
  : Env * list event * outcome Transport :=
  let blank := mkSys (mkTransport name action None None None) e [] in
  match __init__ name action blank with
  | (s, Normal _) => (env s, trace s, Normal (this s))
  | (s, Raised ex) => (env s, trace s, Raised ex)
  end.

(** ** Auxiliary notions used in the statements *)

(** The diagnostic the decoder makes up for a body it cannot decode. *)
Definition synthetic (content : string) : Diagnostic :=
  mkDiagnostic (JObject [("code", JString "UNKNOWN"); ("message", JString content)]).

(** The value of [fields.get(k)]: the member, or Python's [None]. *)
Definition field_or_none (k : string) (fields : list (string * json)) : json :=
  match dict_get k fields with Some v => v | None => JNull end.

(** What one turn of the token loop of [_Ping] does to the object. *)
Definition token_effect (tr : Transport) (t : string) : Transport :=
  if startswith t _REALM_PFX then
    mkTransport (_name tr) (_action tr)
                (Some (strip dquote (slice_from (String.length _REALM_PFX) t)))
                (_service tr) (_bearer_creds tr)
  else if startswith t _SERVICE_PFX then
    mkTransport (_name tr) (_action tr) (_realm tr)
                (Some (strip dquote (slice_from (String.length _SERVICE_PFX) t)))
                (_bearer_creds tr)
  else tr.

(** The tokens of a challenge: what follows [Bearer ], cut at the commas. *)
Definition challenge_tokens (challenge : string) : list string :=
  split "," (slice_from (String.length _CHALLENGE) challenge).

(** [c] occurs in [s]. *)
Fixpoint has_char (c : ascii) (s : string) : bool :=
  match s with
  | EmptyString => false
  | String a s' => (Ascii.eqb a c || has_char c s')%bool
  end.

(** An attribute value that needs no care: no comma and no double quote. *)
Definition plain (v : string) : bool :=
  (negb (has_char "," v) && negb (has_char dquote v))%bool.

(** The object with a new credential in its slot. *)
Definition with_bearer (tr : Transport) (b : Bearer) : Transport :=
  mkTransport (_name tr) (_action tr) (_realm tr) (_service tr) (Some b).

(** The log after the token exchange of a [_Refresh] entered in state [s]. *)
Definition refresh_trace (s : Sys) (req : http_request) : list event :=
  (trace s ++ [RefreshCall]) ++ [HttpCall InRefresh req (_bearer_creds (this s))].

(** The object as [_Ping] leaves it after the token loop, for a given
    challenge. *)
Definition pinged (tr : Transport) (challenge : string) : Transport :=
  fold_left token_effect (challenge_tokens challenge)
            (mkTransport (_name tr) (_action tr) (_realm tr)
                         (Some (registry (_name tr))) (_bearer_creds tr)).

(** The message of the last check of [_Ping]. *)
Definition realm_expected (challenge : string) : string :=
  "Expected a " ++ q ++ _REALM_PFX ++ q ++ " in " ++ q ++
  "www-authenticate" ++ q ++ " header: " ++ challenge.

(** No token of the list starts with the prefix. *)
Definition none_startswith (pfx : string) (tokens : list string) : bool :=
  forallb (fun t => negb (startswith t pfx)) tokens.

(** The request of one turn of the loop of [Request], for the credential
    that is current at that turn. *)
Definition attempt_request (creds : Bearer) (url_ method_ : string)
           (body_ content_type : option string)
           (accepted_mimes : option (list string)) : http_request :=
  mkRequest url_ method_ body_
            (request_headers (Bearer_Get creds) method_ body_ content_type
                             accepted_mimes).

(** The token exchange among the logged events. *)
Definition is_exchange (ev : event) : bool :=
  match ev with HttpCall InRefresh _ _ => true | _ => false end.

(** The typed diagnostic error among the exceptions. *)
Definition is_diagnostic_error (ex : exn) : bool :=
  match ex with V2DiagnosticException _ _ _ => true | _ => false end.

(** The state after one turn of the loop of [Request] has invoked the HTTP
    transport with [req] and the outside world has become [e]. *)
Definition after_attempt (s : Sys) (req : http_request) (e : Env) : Sys :=
  mkSys (this s) e
        (trace s ++ [HttpCall InRequest req (_bearer_creds (this s))]).

(** A diagnostic that wraps a JSON object. *)
Definition object_backed (d : Diagnostic) : bool :=
  match _error d with JObject _ => true | _ => false end.

(** [method in ('POST', 'PUT')] *)
Definition post_or_put (method_ : string) : bool :=
  existsb (String.eqb method_) ["POST"; "PUT"].

(** The same test on the method the caller gave, if any. *)
Definition given_post_or_put (method_ : option string) : bool :=
  match method_ with Some g => post_or_put g | None => false end.

(** [content_type if content_type else 'application/json'] *)
Definition content_type_or_json (content_type : option string) : string :=
  match content_type with
  | Some c => if truthy c then c else "application/json"
  | None => "application/json"
  end.

(** An event of the log is well formed for a call of [Request] when, if it
    is an attempt, it was sent while some credential was current and carries
    the headers built from that credential and the arguments. *)
Definition attempt_well_formed (url_ m : string) (body_ content_type : option string)
           (accepted_mimes : option (list string)) (ev : event) : Prop :=
  match ev with
  | HttpCall InRequest req cur =>
      exists creds, cur = Some creds /\
                    req = attempt_request creds url_ m body_ content_type accepted_mimes
  | _ => True
  end.

(** A pattern without group markers. *)
Definition no_groups (pat : list atom) : bool :=
  forallb (fun a => match a with GroupOpen | GroupClose => false | _ => true end) pat.

(** The text the pattern of [ParseNextLinkHeader] needs after the link. *)
Definition rel_next : string := "rel=" ++ q ++ "next" ++ q.

(** The link header of the page before the last, as the spec writes it. *)
Definition example_link : string := "<https://x/y?page=2>; " ++ rel_next.


(** ** Further notions used in the statements *)

(** The events a run has added to the log. *)
Definition new_events (before after : Sys) : list event :=
  skipn (List.length (trace before)) (trace after).

(** The part of the object that only [__init__] and [_Ping] write. *)
Definition same_binding (a b : Transport) : Prop :=
  _name a = _name b /\ _action a = _action b /\
  _realm a = _realm b /\ _service a = _service b.

(** The state right after the ping has been answered, before [_Ping] has
    written anything to the object. *)
Definition after_ping (s : Sys) (e : Env) : Sys :=
  mkSys (this s) e
        (trace s ++ [HttpCall InPing (ping_request (_name (this s)))
                              (_bearer_creds (this s))]).

(** A decoded value that is neither a container nor a string. *)
Definition scalar (v : json) : bool :=
  match v with
  | JNull | JBool _ | JInt _ | JFloat _ => true
  | _ => false
  end.

(** The line of the message of the diagnostic error for one diagnostic that
    wraps an object. *)
Definition diagnostic_line (d : Diagnostic) : string :=
  match _error d with
  | JObject fields =>
      py_str (field_or_none "message" fields) ++ ": " ++
      py_str (field_or_none "detail" fields)
  | _ => EmptyString
  end.

(** Every character of [s] satisfies [p]. *)
Fixpoint all_chars (p : ascii -> bool) (s : string) : bool :=
  match s with
  | EmptyString => true
  | String c s' => (p c && all_chars p s')%bool
  end.

(** What follows the link in a header entry of relation [next], as the spec
    writes it. *)
Definition next_suffix : string := ">; " ++ rel_next.

(** The URL the generator of [PaginatedRequest] will test at its next step. *)
Definition next_page_of (g : generator) : option string :=
  match g_pc g with
  | AtStart => Some (g_url g)
  | AtYield resp => ParseNextLinkHeader resp
  | Finished => None
  end.

(** A traversal by links, as the registry serves it: starting in state [s]
    at the URL [u], each [Request] returns a page whose link header names
    the next URL, until a page without a next link ends the traversal
    ([None]) or a [Request] raises ([Some ex]). *)
Inductive walk (accepted_codes : option (list Z))
          (method_ body_ content_type : option string)
  : Sys -> string -> list (Response * string) -> Sys -> option exn -> Prop :=
| walk_last (s s' : Sys) (u : string) (page : Response * string) :
    truthy u = true ->
    Request u accepted_codes method_ body_ content_type None s = (s', Normal page) ->
    ParseNextLinkHeader (fst page) = None ->
    walk accepted_codes method_ body_ content_type s u [page] s' None
| walk_fail (s s' : Sys) (u : string) (ex : exn) :
    truthy u = true ->
    Request u accepted_codes method_ body_ content_type None s = (s', Raised ex) ->
    walk accepted_codes method_ body_ content_type s u [] s' (Some ex)
| walk_more (s s1 s' : Sys) (u u' : string) (page : Response * string)
            (rest : list (Response * string)) (stop : option exn) :
    truthy u = true ->
    Request u accepted_codes method_ body_ content_type None s = (s1, Normal page) ->
    ParseNextLinkHeader (fst page) = Some u' ->
    walk accepted_codes method_ body_ content_type s1 u' rest s' stop ->
    walk accepted_codes method_ body_ content_type s u (page :: rest) s' stop.

(** The generator holds the arguments of the call. *)
Definition called_with (g : generator) (accepted_codes : option (list Z))
           (method_ body_ content_type : option string) : Prop :=
  g_accepted_codes g = accepted_codes /\ g_method g = method_ /\
  g_body g = body_ /\ g_content_type g = content_type.

(** ** Facts about the embedding *)

Lemma existsb_eqb_In (a : string) (l : list string) :
  existsb (String.eqb a) l = true <-> In a l.
Proof.
  rewrite existsb_exists. split.
  - intros [x [Hin Heq]]. apply String.eqb_eq in Heq. now subst.
  - intros Hin. exists a. split; [assumption | apply String.eqb_refl].
Qed.

Lemma existsb_key_dict_get {V} (k : string) (d : dict V) :
  existsb (fun kv => String.eqb (fst kv) k) d = true <-> dict_get k d <> None.
Proof.
  induction d as [|[k' v] d IH]; simpl.
  - split; [discriminate | congruence].
  - destruct (String.eqb k' k); simpl.
    + split; [discriminate | reflexivity].
    + exact IH.
Qed.

Lemma existsb_key_absent {V} (k : string) (d : dict V) :
  dict_get k d = None -> existsb (fun kv => String.eqb (fst kv) k) d = false.
Proof.
  intros H. destruct (existsb _ d) eqn:E; [|reflexivity].
  apply existsb_key_dict_get in E. contradiction.
Qed.

Lemma existsb_key_present {V} (k : string) (d : dict V) (v : V) :
  dict_get k d = Some v -> existsb (fun kv => String.eqb (fst kv) k) d = true.
Proof.
  intros H. apply existsb_key_dict_get. congruence.
Qed.

(** Unfolds one layer of the state-and-exception plumbing. *)
Ltac plumbing :=
  cbv [bind lift ret raise log getattr get_self set_self set_realm set_service
       set_bearer_creds http basic_Get of_reply obind].

(** Rewrites with the answer of a collaborator or the value of an
    attribute, then projects the state again. *)
Ltac given H := rewrite H; cbn [this env trace fst snd].

(** *** The diagnostic decoder (C4) *)

Lemma decoder_total (content : string) :
  exists ds, _DiagnosticsFromContent content = Normal ds.
Proof.
  unfold _DiagnosticsFromContent, try_except.
  destruct (_ <~ loads content ;; _) as [ds|e]; eauto.
Qed.

Lemma decoder_unparsed (content : string) :
  json_loads content = None ->
  _DiagnosticsFromContent content = Normal [synthetic content].
Proof.
  intros H. unfold _DiagnosticsFromContent, loads. now rewrite H.
Qed.

Lemma decoder_errors_array (content : string) items errors :
  json_loads content = Some (JObject items) ->
  dict_get "errors" items = Some (JArray errors) ->
  _DiagnosticsFromContent content = Normal (map mkDiagnostic errors).
Proof.
  intros H1 H2. unfold _DiagnosticsFromContent, loads. rewrite H1. simpl.
  now rewrite H2.
Qed.

(** A body that decodes to something other than an object has no [get]:
    the handler takes over as for a body that does not decode. *)
Remark decoder_not_object (content : string) (v : json) :
  json_loads content = Some v ->
  (forall items, v <> JObject items) ->
  _DiagnosticsFromContent content = Normal [synthetic content].
Proof.
  intros H Hv. unfold _DiagnosticsFromContent, loads. rewrite H.
  destruct v; try reflexivity. now destruct (Hv items).
Qed.

(** C4, as the code has it. The decoder never raises: every body gives a
    list of diagnostics. A body that decodes to an object whose [errors]
    member is an array gives one diagnostic per element, in the order of the
    array, each wrapping its element. On an element that is an object the
    accessors [code], [message] and [detail] return the member of that name,
    or [None] when it is missing, without raising. On every other element
    (a number, a string, an array, [null]) the diagnostic is made all the
    same: the accessors are only read later, outside the [except] of the
    decoder, and each of them raises [AttributeError]. There the fields are
    not absent values but failures. A body that does not decode gives exactly
    one diagnostic, with code [UNKNOWN] and the raw body as its message. *)
Theorem diagnostics_from_content_spec (content : string) :
  (exists ds, _DiagnosticsFromContent content = Normal ds) /\
  (forall items errors,
      json_loads content = Some (JObject items) ->
      dict_get "errors" items = Some (JArray errors) ->
      _DiagnosticsFromContent content = Normal (map mkDiagnostic errors) /\
      forall v, In v errors ->
        In (mkDiagnostic v) (map mkDiagnostic errors) /\
        match v with
        | JObject fields =>
            code (mkDiagnostic v) = Normal (field_or_none "code" fields) /\
            message (mkDiagnostic v) = Normal (field_or_none "message" fields) /\
            detail (mkDiagnostic v) = Normal (field_or_none "detail" fields)
        | _ =>
            code (mkDiagnostic v) = Raised (AttributeError "get") /\
            message (mkDiagnostic v) = Raised (AttributeError "get") /\
            detail (mkDiagnostic v) = Raised (AttributeError "get")
        end) /\
  (json_loads content = None ->
      exists d, _DiagnosticsFromContent content = Normal [d] /\
                code d = Normal (JString "UNKNOWN") /\
                message d = Normal (JString content)).
Proof.
  split; [apply decoder_total | split].
  - intros items errors H1 H2. split.
    + now apply decoder_errors_array with items.
    + intros v Hin. split; [now apply in_map|].
      destruct v; repeat split.
  - intros H. exists (synthetic content). split.
    + now apply decoder_unparsed.
    + split; reflexivity.
Qed.

(** *** Construction: action check and ping (C9, C6) *)

Lemma init_invalid_action (name : Name) (action : string) (s : Sys) :
  ~ In action ACTIONS ->
  __init__ name action s =
  (mkSys (mkTransport name action None None None) (env s) (trace s),
   Raised (BadStateException
             ("Invalid action supplied to docker_http.Transport: " ++ action))).
Proof.
  intros H. unfold __init__. plumbing.
  destruct (existsb (String.eqb action) ACTIONS) eqn:E.
  - apply existsb_eqb_In in E. contradiction.
  - reflexivity.
Qed.

(** C9. An action outside [ACTIONS] makes the constructor raise
    [BadStateException]; the HTTP transport has not been invoked (the log is
    empty and the outside world is as it was) and no object is returned. *)
Theorem invalid_action_rejected (name : Name) (action : string) (e : Env) :
  ~ In action ACTIONS ->
  Transport_new name action e =
  (e, [],
   Raised (BadStateException
             ("Invalid action supplied to docker_http.Transport: " ++ action))).
Proof.
  intros H. unfold Transport_new. now rewrite init_invalid_action.
Qed.

Lemma ping_unexpected_status (s : Sys) e' resp content :
  transport_request (ping_request (_name (this s))) (env s)
    = (e', Replied (resp, content)) ->
  status resp <> UNAUTHORIZED ->
  _Ping s =
  (mkSys (this s) e'
         (trace s ++ [HttpCall InPing (ping_request (_name (this s)))
                               (_bearer_creds (this s))]),
   Raised (BadStateException ("Unexpected status: " ++ fmt_d (status resp)))).
Proof.
  intros Hreq Hst. unfold _Ping. plumbing. rewrite Hreq. simpl.
  apply Z.eqb_neq in Hst. rewrite Hst. reflexivity.
Qed.

(** C6. When the ping is answered with a status other than 401, [_Ping]
    raises [BadStateException] ("Unexpected status"), and so does the
    constructor: it returns no object, whatever the action; with a valid
    action the ping is the only call made. *)
Theorem ping_requires_unauthorized (name : Name) (action : string) (e e' : Env)
        (resp : Response) (content : string) :
  transport_request (ping_request name) e = (e', Replied (resp, content)) ->
  status resp <> UNAUTHORIZED ->
  (forall s, env s = e -> _name (this s) = name ->
     exists s', _Ping s =
       (s', Raised (BadStateException ("Unexpected status: " ++ fmt_d (status resp))))) /\
  (In action ACTIONS ->
     Transport_new name action e =
     (e', [HttpCall InPing (ping_request name) None],
      Raised (BadStateException ("Unexpected status: " ++ fmt_d (status resp))))) /\
  (exists e'' t msg,
     Transport_new name action e = (e'', t, Raised (BadStateException msg))).
Proof.
  intros Hreq Hst.
  assert (Hvalid : In action ACTIONS ->
     Transport_new name action e =
     (e', [HttpCall InPing (ping_request name) None],
      Raised (BadStateException ("Unexpected status: " ++ fmt_d (status resp))))).
  { intros Hin. unfold Transport_new, __init__.
    apply existsb_eqb_In in Hin.
    unfold bind at 1. unfold set_self at 1. cbv beta iota.
    unfold bind at 1. unfold lift at 1. rewrite Hin. cbv beta iota delta [_CheckState negb].
    unfold bind at 1. cbn [this env trace].
    rewrite (ping_unexpected_status
               (mkSys (mkTransport name action None None None) e [])
               e' resp content Hreq Hst).
    reflexivity. }
  split; [|split].
  - intros s He Hn. subst.
    rewrite (ping_unexpected_status s e' resp content Hreq Hst). eauto.
  - exact Hvalid.
  - destruct (in_dec string_dec action ACTIONS) as [Hin|Hout].
    + rewrite (Hvalid Hin). eauto.
    + unfold Transport_new. rewrite (init_invalid_action _ _ _ Hout).
      cbn [env trace]. eauto.
Qed.

(** *** Token exchange (C2) *)

(** C2, as the code has it. When the token endpoint answers 200 with a body
    that decodes: if the decoded value is an object with a [token] member,
    [_Refresh] returns normally and the object's credential is a [Bearer]
    wrapping exactly that value; if it is an object without one, [_Refresh]
    raises [BadStateException] ("Malformed JSON response"). If the decoded
    value is [null], a boolean or a number, it has no [token] member either,
    but the test ['token' in wrapper_object] itself raises [TypeError] and
    the check written for the state error is never reached. On an array or
    a string the test is membership: without ["token"] in it the state
    error is raised, with it the subscript raises [TypeError]. Whenever
    [_Refresh] raises here, the object, its credential included, is
    unchanged. *)
Theorem refresh_token_exchange (s : Sys) (e1 e2 : Env)
        (auth service realm content : string) (resp : Response) (v : json) :
  basic_creds_Get (env s) = (e1, Replied auth) ->
  _service (this s) = Some service ->
  _realm (this s) = Some realm ->
  transport_request (refresh_request auth (_Scope (this s)) service realm) e1
    = (e2, Replied (resp, content)) ->
  status resp = OK ->
  json_loads content = Some v ->
  let req := refresh_request auth (_Scope (this s)) service realm in
  let unchanged := mkSys (this s) e2 (refresh_trace s req) in
  let malformed := BadStateException ("Malformed JSON response: " ++ content) in
  (forall items token,
     v = JObject items -> dict_get "token" items = Some token ->
     _Refresh s = (mkSys (with_bearer (this s) (mkBearer token)) e2
                         (refresh_trace s req), Normal tt)) /\
  (forall items,
     v = JObject items -> dict_get "token" items = None ->
     _Refresh s = (unchanged, Raised malformed)) /\
  (scalar v = true -> _Refresh s = (unchanged, Raised TypeError)) /\
  (forall present,
     (forall items, v <> JObject items) ->
     py_contains "token" v = Normal present ->
     _Refresh s = (unchanged, Raised (if present then TypeError else malformed))).
Proof.
  intros Hget Hsvc Hrealm Hreq Hst Hjson req unchanged malformed.
  assert (Hrun : _Refresh s =
    match py_contains "token" v with
    | Raised ex => (unchanged, Raised ex)
    | Normal false => (unchanged, Raised malformed)
    | Normal true =>
        match py_getitem v "token" with
        | Normal token => (mkSys (with_bearer (this s) (mkBearer token)) e2
                                 (refresh_trace s req), Normal tt)
        | Raised ex => (unchanged, Raised ex)
        end
    end).
  { subst req unchanged malformed. unfold _Refresh. plumbing. cbn [this env trace].
    given Hget. given Hsvc. given Hrealm. given Hreq.
    rewrite Hst. cbn [Z.eqb OK Pos.eqb _CheckState negb].
    unfold loads. rewrite Hjson.
    destruct (py_contains "token" v) as [[|]|ex]; [|reflexivity|reflexivity].
    destruct (py_getitem v "token") as [token|ex]; reflexivity. }
  repeat split.
  - intros items token Hv Htok. subst v. rewrite Hrun.
    cbn [py_contains py_getitem].
    now rewrite (existsb_key_present _ _ _ Htok), Htok.
  - intros items Hv Htok. subst v. rewrite Hrun. cbn [py_contains].
    now rewrite (existsb_key_absent _ _ Htok).
  - intros Hv. rewrite Hrun. destruct v; try discriminate Hv; reflexivity.
  - intros present Hv Hin. rewrite Hrun, Hin.
    destruct present; [|reflexivity].
    destruct v; try reflexivity. now destruct (Hv items).
Qed.

(** The body [null], whatever else the world does: the membership test
    itself raises. *)
Remark refresh_null_body (s : Sys) (e1 e2 : Env)
       (auth service realm content : string) (resp : Response) :
  basic_creds_Get (env s) = (e1, Replied auth) ->
  _service (this s) = Some service ->
  _realm (this s) = Some realm ->
  transport_request (refresh_request auth (_Scope (this s)) service realm) e1
    = (e2, Replied (resp, content)) ->
  status resp = OK ->
  json_loads content = Some JNull ->
  snd (_Refresh s) = Raised TypeError.
Proof.
  intros Hget Hsvc Hrealm Hreq Hst Hjson.
  unfold _Refresh. plumbing. cbn [this env trace].
  given Hget. given Hsvc. given Hrealm. given Hreq.
  rewrite Hst. cbn [Z.eqb OK Pos.eqb _CheckState negb].
  unfold loads. rewrite Hjson. reflexivity.
Qed.

(** *** Strings: splitting and stripping *)

Lemma has_char_app (c : ascii) (a b : string) :
  has_char c (a ++ b) = (has_char c a || has_char c b)%bool.
Proof.
  induction a as [|x a IH]; simpl; [reflexivity|].
  rewrite IH. now rewrite orb_assoc.
Qed.

Lemma split_no_sep (sep : ascii) (s : string) :
  has_char sep s = false -> split sep s = [s].
Proof.
  induction s as [|c s IH]; simpl; [reflexivity|].
  intros H. apply orb_false_iff in H as [Hc Hs].
  rewrite Hc, (IH Hs). reflexivity.
Qed.

Lemma split_app (sep : ascii) (a b : string) :
  has_char sep a = false ->
  split sep (a ++ String sep b) = a :: split sep b.
Proof.
  induction a as [|c a IH]; simpl.
  - intros _. now rewrite Ascii.eqb_refl.
  - intros H. apply orb_false_iff in H as [Hc Ha].
    rewrite Hc, (IH Ha). reflexivity.
Qed.

Lemma rstrip_app (c : ascii) (s : string) :
  has_char c s = false -> rstrip c (s ++ String c EmptyString) = s.
Proof.
  induction s as [|a s IH]; simpl.
  - intros _. now rewrite Ascii.eqb_refl.
  - intros H. apply orb_false_iff in H as [Ha Hs].
    rewrite (IH Hs). destruct s; [now rewrite Ha | reflexivity].
Qed.

Lemma strip_quoted (c : ascii) (s : string) :
  has_char c s = false ->
  strip c (String c (s ++ String c EmptyString)) = s.
Proof.
  intros H. unfold strip. simpl. rewrite Ascii.eqb_refl.
  destruct s as [|a s]; simpl.
  - now rewrite Ascii.eqb_refl.
  - simpl in H. apply orb_false_iff in H as [Ha Hs].
    rewrite Ha.
    change (String a (s ++ String c EmptyString))
      with (String a s ++ String c EmptyString).
    apply rstrip_app. simpl. now rewrite Ha, Hs.
Qed.

Lemma plain_no_comma (v : string) : plain v = true -> has_char "," v = false.
Proof.
  unfold plain. intros H. apply andb_true_iff in H as [H _].
  now apply negb_true_iff in H.
Qed.

Lemma plain_no_quote (v : string) : plain v = true -> has_char dquote v = false.
Proof.
  unfold plain. intros H. apply andb_true_iff in H as [_ H].
  now apply negb_true_iff in H.
Qed.

Lemma attr_no_comma (key value : string) :
  has_char "," key = false -> plain value = true ->
  has_char "," (attr key value) = false.
Proof.
  intros Hk Hv. unfold attr. rewrite !has_char_app, Hk.
  now rewrite (plain_no_comma _ Hv).
Qed.

Lemma strip_attr_value (value : string) :
  plain value = true -> strip dquote (q ++ value ++ q) = value.
Proof.
  intros Hv. apply (strip_quoted dquote value), plain_no_quote, Hv.
Qed.

(** *** The ping (C3, C5) *)

Lemma ping_tokens_fold (tokens : list string) (s : Sys) :
  _Ping_tokens tokens s =
  (mkSys (fold_left token_effect tokens (this s)) (env s) (trace s), Normal tt).
Proof.
  revert s. induction tokens as [|t rest IH]; intros s.
  - destruct s. reflexivity.
  - cbn [_Ping_tokens fold_left]. unfold bind at 1.
    unfold token_effect at 2.
    destruct (startswith t _REALM_PFX);
      [|destruct (startswith t _SERVICE_PFX)];
      plumbing; rewrite IH; reflexivity.
Qed.

(** [_Ping] on a 401 whose challenge starts with [Bearer ]. *)
Lemma ping_challenge (s : Sys) (e' : Env) (resp : Response)
      (content challenge : string) :
  transport_request (ping_request (_name (this s))) (env s)
    = (e', Replied (resp, content)) ->
  status resp = UNAUTHORIZED ->
  dict_get "www-authenticate" (resp_headers resp) = Some challenge ->
  startswith challenge _CHALLENGE = true ->
  _Ping s =
  (mkSys (pinged (this s) challenge) e'
         (trace s ++ [HttpCall InPing (ping_request (_name (this s)))
                               (_bearer_creds (this s))]),
   match _realm (pinged (this s) challenge) with
   | None => Raised (AttributeError "_realm")
   | Some realm => _CheckState (truthy realm) (Some (realm_expected challenge))
   end).
Proof.
  intros Hreq Hst Hhdr Hpfx. unfold _Ping. plumbing. given Hreq.
  rewrite Hst. cbn [Z.eqb UNAUTHORIZED Pos.eqb _CheckState negb].
  unfold resp_getitem. rewrite Hhdr, Hpfx. cbn [negb].
  rewrite ping_tokens_fold. cbn [this env trace].
  fold (challenge_tokens challenge). fold (pinged (this s) challenge).
  destruct (_realm (pinged (this s) challenge)) as [realm|]; [|reflexivity].
  fold (realm_expected challenge).
  destruct (_CheckState (truthy realm) _); reflexivity.
Qed.

Lemma token_effect_realm (tr : Transport) (R : string) :
  plain R = true ->
  token_effect tr (attr "realm" R) =
  mkTransport (_name tr) (_action tr) (Some R) (_service tr) (_bearer_creds tr).
Proof.
  intros HR. unfold token_effect.
  change (startswith (attr "realm" R) _REALM_PFX) with true. cbv iota.
  change (slice_from (String.length _REALM_PFX) (attr "realm" R))
    with (q ++ R ++ q).
  now rewrite strip_attr_value.
Qed.

Lemma token_effect_service (tr : Transport) (S : string) :
  plain S = true ->
  token_effect tr (attr "service" S) =
  mkTransport (_name tr) (_action tr) (_realm tr) (Some S) (_bearer_creds tr).
Proof.
  intros HS. unfold token_effect.
  change (startswith (attr "service" S) _REALM_PFX) with false.
  change (startswith (attr "service" S) _SERVICE_PFX) with true. cbv iota.
  change (slice_from (String.length _SERVICE_PFX) (attr "service" S))
    with (q ++ S ++ q).
  now rewrite strip_attr_value.
Qed.

Lemma challenge_tokens_pair (a b : string) :
  has_char "," a = false -> has_char "," b = false ->
  challenge_tokens (_CHALLENGE ++ a ++ "," ++ b) = [a; b].
Proof.
  intros Ha Hb. unfold challenge_tokens.
  change (slice_from (String.length _CHALLENGE) (_CHALLENGE ++ a ++ "," ++ b))
    with (a ++ String "," b).
  now rewrite split_app, split_no_sep.
Qed.

Lemma fold_keeps_realm (tokens : list string) (tr : Transport) :
  none_startswith _REALM_PFX tokens = true ->
  _realm (fold_left token_effect tokens tr) = _realm tr.
Proof.
  revert tr. induction tokens as [|t rest IH]; intros tr H; [reflexivity|].
  simpl in H. apply andb_true_iff in H as [Ht Hrest].
  apply negb_true_iff in Ht. cbn [fold_left]. rewrite (IH _ Hrest).
  unfold token_effect. rewrite Ht.
  destruct (startswith t _SERVICE_PFX); reflexivity.
Qed.

Lemma fold_keeps_service (tokens : list string) (tr : Transport) :
  none_startswith _SERVICE_PFX tokens = true ->
  _service (fold_left token_effect tokens tr) = _service tr.
Proof.
  revert tr. induction tokens as [|t rest IH]; intros tr H; [reflexivity|].
  simpl in H. apply andb_true_iff in H as [Ht Hrest].
  apply negb_true_iff in Ht. cbn [fold_left]. rewrite (IH _ Hrest).
  unfold token_effect. rewrite Ht.
  destruct (startswith t _REALM_PFX); reflexivity.
Qed.

(** C3. What the code does when the challenge has no [realm=] token: the
    attribute [_realm] was never assigned, so reading it in the last check
    of [_Ping] raises [AttributeError] before [_CheckState] is entered; the
    constructor fails with that exception, not with [BadStateException]. *)
Theorem ping_without_realm_token (name : Name) (action : string) (e e' : Env)
        (resp : Response) (content challenge : string) :
  In action ACTIONS ->
  transport_request (ping_request name) e = (e', Replied (resp, content)) ->
  status resp = UNAUTHORIZED ->
  dict_get "www-authenticate" (resp_headers resp) = Some challenge ->
  startswith challenge _CHALLENGE = true ->
  none_startswith _REALM_PFX (challenge_tokens challenge) = true ->
  Transport_new name action e =
  (e', [HttpCall InPing (ping_request name) None],
   Raised (AttributeError "_realm")).
Proof.
  intros Hin Hreq Hst Hhdr Hpfx Hnone.
  unfold Transport_new, __init__.
  apply existsb_eqb_In in Hin.
  unfold bind at 1. unfold set_self at 1. cbv beta iota.
  unfold bind at 1. unfold lift at 1. rewrite Hin.
  cbv beta iota delta [_CheckState negb].
  unfold bind at 1. cbn [this env trace].
  rewrite (ping_challenge
             (mkSys (mkTransport name action None None None) e [])
             e' resp content challenge Hreq Hst Hhdr Hpfx).
  unfold pinged. rewrite (fold_keeps_realm _ _ Hnone). reflexivity.
Qed.

(** C5, as the code has it. A challenge that is [Bearer ] followed by the
    attributes [realm="R"] and [service="S"], in either order and separated
    by a single comma with no white space, where [R] and [S] hold no comma
    and no double quote and [R] is not empty, makes [_Ping] return normally
    with [_realm = R] and [_service = S]. When no token of the challenge
    starts with [service=], the service is the registry host of the name,
    the host the ping URL is built from. *)
Theorem ping_reads_challenge (s : Sys) (e' : Env) (resp : Response)
        (content challenge : string) :
  transport_request (ping_request (_name (this s))) (env s)
    = (e', Replied (resp, content)) ->
  status resp = UNAUTHORIZED ->
  dict_get "www-authenticate" (resp_headers resp) = Some challenge ->
  (forall R S,
      plain R = true -> plain S = true -> truthy R = true ->
      challenge = _CHALLENGE ++ attr "realm" R ++ "," ++ attr "service" S \/
      challenge = _CHALLENGE ++ attr "service" S ++ "," ++ attr "realm" R ->
      exists s', _Ping s = (s', Normal tt) /\
                 _realm (this s') = Some R /\ _service (this s') = Some S) /\
  (startswith challenge _CHALLENGE = true ->
   none_startswith _SERVICE_PFX (challenge_tokens challenge) = true ->
   _service (this (fst (_Ping s))) = Some (registry (_name (this s))) /\
   url (ping_request (_name (this s))) =
     Scheme (registry (_name (this s))) ++ "://" ++ registry (_name (this s)) ++ "/v2/").
Proof.
  intros Hreq Hst Hhdr. split.
  - intros R S HR HS HRne Hform.
    assert (Hpfx : startswith challenge _CHALLENGE = true)
      by (destruct Hform as [-> | ->]; reflexivity).
    rewrite (ping_challenge s e' resp content challenge Hreq Hst Hhdr Hpfx).
    assert (Hp : _realm (pinged (this s) challenge) = Some R /\
                 _service (pinged (this s) challenge) = Some S).
    { unfold pinged.
      destruct Hform as [-> | ->];
        rewrite challenge_tokens_pair
          by (apply attr_no_comma; [reflexivity | assumption]);
        cbn [fold_left];
        rewrite ?token_effect_realm, ?token_effect_service by assumption;
        rewrite ?token_effect_realm, ?token_effect_service by assumption;
        split; reflexivity. }
    destruct Hp as [Hrealm Hservice]. rewrite Hrealm.
    unfold _CheckState. rewrite HRne. cbn [negb].
    eexists. split; [reflexivity|]. cbn [this]. now split.
  - intros Hpfx Hnone.
    rewrite (ping_challenge s e' resp content challenge Hreq Hst Hhdr Hpfx).
    cbn [fst this]. unfold pinged. rewrite (fold_keeps_service _ _ Hnone).
    split; reflexivity.
Qed.

(** *** What [_Refresh] can do *)

(** Splits on the next collaborator answer, attribute, decoded value or
    test the run depends on. *)
Ltac branch :=
  match goal with
  | |- context [basic_creds_Get ?e] =>
      destruct (basic_creds_Get e) as [? [?|?]] eqn:?
  | |- context [transport_request ?r ?e] =>
      destruct (transport_request r e) as [? [[? ?]|?]] eqn:?
  | |- context [json_loads ?c] => destruct (json_loads c) eqn:?
  | |- context [match _service ?t with _ => _ end] => destruct (_service t) eqn:?
  | |- context [match _realm ?t with _ => _ end] => destruct (_realm t) eqn:?
  | |- context [match _bearer_creds ?t with _ => _ end] =>
      destruct (_bearer_creds t) eqn:?
  | |- context [match dict_get ?k ?d with _ => _ end] =>
      destruct (dict_get k d) eqn:?
  | |- context [if ?b then _ else _] => destruct b eqn:?
  | |- context [match ?x with _ => _ end] => is_var x; destruct x
  end; cbn [this env trace fst snd negb] in *.

(** [_Refresh] logs its entry and at most one call, the token exchange,
    which it has made when it returns; it never raises the diagnostic
    error. *)
Lemma refresh_inv (s : Sys) :
  exists evs,
    trace (fst (_Refresh s)) = (trace s ++ RefreshCall :: evs)%list /\
    forallb is_exchange evs = true /\
    (List.length evs <= 1)%nat /\
    match snd (_Refresh s) with
    | Raised ex => is_diagnostic_error ex = false
    | Normal _ => List.length evs = 1%nat
    end.
Proof.
  unfold _Refresh, _CheckState, loads, py_contains, py_getitem. plumbing.
  cbn [this env trace].
  repeat branch;
    first [ exists []; repeat split; simpl; auto; lia
          | eexists [_]; rewrite <- app_assoc; repeat split; simpl; auto; lia ].
Qed.

(** *** The loop of [Request] *)

Lemma request_check_state (accepted_codes : option (list Z))
      (last : option (Response * string)) (s : Sys) :
  fst (Request_check accepted_codes last s) = s.
Proof.
  unfold Request_check, raise_V2DiagnosticException, status_not_in. plumbing.
  destruct last as [[resp content]|]; [|reflexivity].
  destruct accepted_codes as [codes|]; [|reflexivity].
  destruct (negb _); [|reflexivity].
  destruct (new_V2DiagnosticException resp content); reflexivity.
Qed.

(** The first turn, answered 401: the credential is refreshed and, if that
    returns, the second and last turn runs. *)
Lemma request_first_unauthorized (s : Sys) (url_ : string)
      (accepted_codes : option (list Z)) (method_ body_ content_type : option string)
      (accepted_mimes : option (list string))
      (creds : Bearer) (e1 : Env) (r1 : Response) (c1 : string) :
  let m := default_method method_ body_ in
  let req1 := attempt_request creds url_ m body_ content_type accepted_mimes in
  _bearer_creds (this s) = Some creds ->
  transport_request req1 (env s) = (e1, Replied (r1, c1)) ->
  status r1 = UNAUTHORIZED ->
  Request url_ accepted_codes method_ body_ content_type accepted_mimes s =
  match _Refresh (after_attempt s req1 e1) with
  | (s2, Normal _) =>
      (last <- Request_loop [false] (Some (r1, c1)) url_ m body_ content_type
                            accepted_mimes ;;
       Request_check accepted_codes last) s2
  | (s2, Raised ex) => (s2, Raised ex)
  end.
Proof.
  intros m req1 Hcreds Hreq Hst. unfold Request. fold m.
  unfold bind at 1. cbn [Request_loop].
  unfold bind at 1. unfold getattr at 1. rewrite Hcreds.
  unfold bind at 1. unfold http at 1. fold (attempt_request creds url_ m body_ content_type accepted_mimes).
  fold req1. rewrite Hreq. cbn [of_reply fst]. rewrite Hst.
  cbn [Z.eqb UNAUTHORIZED Pos.eqb negb].
  unfold bind at 1. unfold after_attempt. rewrite Hcreds.
  destruct (_Refresh _) as [s2 [u|ex]]; [|reflexivity].
  unfold bind at 3. reflexivity.
Qed.

(** The last turn: one more invocation, and its answer is the result of the
    loop whatever its status. *)
Lemma request_last_turn (s : Sys) (url_ m : string)
      (body_ content_type : option string) (accepted_mimes : option (list string))
      (last : option (Response * string))
      (creds : Bearer) (e : Env) (r : Response) (c : string) :
  let req := attempt_request creds url_ m body_ content_type accepted_mimes in
  _bearer_creds (this s) = Some creds ->
  transport_request req (env s) = (e, Replied (r, c)) ->
  Request_loop [false] last url_ m body_ content_type accepted_mimes s =
  (after_attempt s req e, Normal (Some (r, c))).
Proof.
  intros req Hcreds Hreq. cbn [Request_loop].
  unfold bind at 1. unfold getattr at 1. rewrite Hcreds.
  unfold bind at 1. unfold http at 1.
  fold (attempt_request creds url_ m body_ content_type accepted_mimes).
  fold req. rewrite Hreq. cbn [of_reply fst].
  unfold after_attempt. rewrite Hcreds.
  destruct (negb (status r =? UNAUTHORIZED)); reflexivity.
Qed.

(** The last turn logs at most one event, an attempt, and never raises the
    diagnostic error. *)
Lemma request_last_turn_inv (s : Sys) (url_ m : string)
      (body_ content_type : option string) (accepted_mimes : option (list string))
      (last : option (Response * string)) :
  let run := Request_loop [false] last url_ m body_ content_type accepted_mimes s in
  exists evs,
    trace (fst run) = (trace s ++ evs)%list /\
    forallb is_attempt evs = true /\ (List.length evs <= 1)%nat /\
    match snd run with
    | Raised ex => is_diagnostic_error ex = false
    | Normal None => False
    | Normal (Some _) => True
    end.
Proof.
  cbn [Request_loop]. plumbing. cbn [this env trace].
  repeat branch;
    first [ exists []; rewrite app_nil_r; repeat split; simpl; auto; lia
          | eexists [_]; repeat split; simpl; auto; lia ].
Qed.

(** *** Building the diagnostic error *)

Lemma diagnostic_lines (ds : list Diagnostic) :
  omap (fun d => m <~ message d ;; dt <~ detail d ;;
                 Normal (py_str m ++ ": " ++ py_str dt)) ds =
  if forallb object_backed ds
  then Normal (map (fun d =>
                      match _error d with
                      | JObject fields =>
                          py_str (field_or_none "message" fields) ++ ": " ++
                          py_str (field_or_none "detail" fields)
                      | _ => EmptyString
                      end) ds)
  else Raised (AttributeError "get").
Proof.
  set (line := fun d => m <~ message d ;; dt <~ detail d ;;
                        Normal (py_str m ++ ": " ++ py_str dt)).
  induction ds as [|[v] ds IH]; [reflexivity|].
  cbn [omap forallb map]. unfold object_backed at 1. cbn [_error].
  assert (Hline : line (mkDiagnostic v) =
                  match v with
                  | JObject fields =>
                      Normal (py_str (field_or_none "message" fields) ++ ": " ++
                              py_str (field_or_none "detail" fields))
                  | _ => Raised (AttributeError "get")
                  end) by (destruct v; reflexivity).
  rewrite Hline.
  destruct v; try reflexivity.
  cbn [obind andb]. rewrite IH.
  destruct (forallb object_backed ds); reflexivity.
Qed.

(** The constructor of the diagnostic error returns the exception when every
    decoded diagnostic wraps an object, and raises [AttributeError] itself
    otherwise. *)
Lemma new_diagnostic_error (resp : Response) (content : string)
      (ds : list Diagnostic) :
  _DiagnosticsFromContent content = Normal ds ->
  (forallb object_backed ds = true ->
   exists msg, new_V2DiagnosticException resp content =
               Normal (V2DiagnosticException resp ds msg)) /\
  (forallb object_backed ds = false ->
   new_V2DiagnosticException resp content = Raised (AttributeError "get")).
Proof.
  intros Hds. unfold new_V2DiagnosticException. rewrite Hds. cbn [obind].
  rewrite diagnostic_lines. split; intros ->; cbn [obind]; eauto.
Qed.

Lemma synthetic_object_backed (content : string) :
  forallb object_backed [synthetic content] = true.
Proof. reflexivity. Qed.

(** *** Counting logged events *)

Lemma count_app (p : event -> bool) (a b : list event) :
  count p (a ++ b) = (count p a + count p b)%nat.
Proof. unfold count. now rewrite filter_app, length_app. Qed.

Lemma count_none (p r : event -> bool) (evs : list event) :
  forallb r evs = true ->
  (forall ev, r ev = true -> p ev = false) ->
  count p evs = 0%nat.
Proof.
  intros Hall Hpr. unfold count.
  induction evs as [|ev evs IH]; [reflexivity|].
  simpl in Hall. apply andb_true_iff in Hall as [Hev Hevs].
  simpl. rewrite (Hpr _ Hev). now apply IH.
Qed.

Lemma count_le_length (p : event -> bool) (evs : list event) :
  (count p evs <= List.length evs)%nat.
Proof. unfold count. apply filter_length_le. Qed.

Lemma exchange_not_refresh (ev : event) : is_exchange ev = true -> is_refresh ev = false.
Proof. destruct ev as [[| |] ? ?|]; simpl; congruence. Qed.

Lemma exchange_not_attempt (ev : event) : is_exchange ev = true -> is_attempt ev = false.
Proof. destruct ev as [[| |] ? ?|]; simpl; congruence. Qed.

Lemma attempt_not_refresh (ev : event) : is_attempt ev = true -> is_refresh ev = false.
Proof. destruct ev as [[| |] ? ?|]; simpl; congruence. Qed.

Lemma then_check_state {A} (c : M A) (k : A -> option (Response * string))
      (accepted_codes : option (list Z)) (s : Sys) :
  fst ((a <- c ;; Request_check accepted_codes (k a)) s) = fst (c s).
Proof.
  unfold bind. destruct (c s) as [s' [a|ex]]; [|reflexivity].
  apply request_check_state.
Qed.

(** *** Request: refresh and retry on 401 (C1) *)

(** C1, as the code has it. Let the first turn of [Request] be answered 401.
    Then [_Refresh] is entered right after it, exactly once, and at most one
    more attempt follows. If [_Refresh] raises, its exception is the result
    and the request is not retried. If [_Refresh] returns, the request is
    sent exactly once more, with the headers of the credential that is then
    current; the log of the call is: first attempt, entry into [_Refresh],
    token exchange, second attempt (three invocations of the HTTP transport,
    two of them attempts). The answer to the second attempt is final,
    whatever its status: it is returned when its status is accepted, and
    when it is 401 again and 401 is not accepted the diagnostic error is
    raised (its constructor returns when every decoded diagnostic wraps an
    object). *)
Theorem request_unauthorized_retry
        (s : Sys) (url_ : string) (accepted_codes : option (list Z))
        (method_ body_ content_type : option string)
        (accepted_mimes : option (list string))
        (creds : Bearer) (e1 : Env) (r1 : Response) (c1 : string) :
  let m := default_method method_ body_ in
  let req1 := attempt_request creds url_ m body_ content_type accepted_mimes in
  let s1 := after_attempt s req1 e1 in
  let run := Request url_ accepted_codes method_ body_ content_type
                     accepted_mimes s in
  _bearer_creds (this s) = Some creds ->
  transport_request req1 (env s) = (e1, Replied (r1, c1)) ->
  status r1 = UNAUTHORIZED ->
  (exists evs,
      trace (fst run) =
        (trace s ++ HttpCall InRequest req1 (Some creds) :: RefreshCall :: evs)%list /\
      count is_refresh evs = 0%nat /\ (count is_attempt evs <= 1)%nat) /\
  (forall s2 ex,
      _Refresh s1 = (s2, Raised ex) ->
      run = (s2, Raised ex) /\
      count is_attempt (trace s2) = count is_attempt (trace s1)) /\
  (forall s2 creds' e3 r2 c2,
      _Refresh s1 = (s2, Normal tt) ->
      _bearer_creds (this s2) = Some creds' ->
      let req2 := attempt_request creds' url_ m body_ content_type accepted_mimes in
      transport_request req2 (env s2) = (e3, Replied (r2, c2)) ->
      (exists exchange cur,
          trace (fst run) =
            (trace s ++ [HttpCall InRequest req1 (Some creds); RefreshCall;
                         HttpCall InRefresh exchange cur;
                         HttpCall InRequest req2 (Some creds')])%list) /\
      run = Request_check accepted_codes (Some (r2, c2)) (after_attempt s2 req2 e3) /\
      (forall codes,
          accepted_codes = Some codes -> In (status r2) codes ->
          snd run = Normal (r2, c2)) /\
      (forall codes ds,
          accepted_codes = Some codes ->
          status r2 = UNAUTHORIZED -> ~ In UNAUTHORIZED codes ->
          _DiagnosticsFromContent c2 = Normal ds ->
          forallb object_backed ds = true ->
          exists msg, snd run = Raised (V2DiagnosticException r2 ds msg))).
Proof.
  intros m req1 s1 run Hcreds Hreq Hst.
  pose proof (request_first_unauthorized s url_ accepted_codes method_ body_
                content_type accepted_mimes creds e1 r1 c1 Hcreds Hreq Hst) as Hrun.
  fold m req1 s1 run in Hrun.
  destruct (refresh_inv s1) as (xs & Htr & Hxs & Hlen & Hout).
  assert (Hs1 : trace s1 = (trace s ++ [HttpCall InRequest req1 (Some creds)])%list).
  { unfold s1, after_attempt. cbn [trace]. now rewrite Hcreds. }
  split; [|split].
  - destruct (_Refresh s1) as [s2 [u|ex]] eqn:Href; cbn [fst snd] in *.
    + pose proof (request_last_turn_inv s2 url_ m body_ content_type
                    accepted_mimes (Some (r1, c1))) as (ys & Hys & Hatt & Hylen & _).
      cbv zeta in Hys.
      exists (xs ++ ys)%list. rewrite Hrun.
      rewrite (then_check_state _ (fun last => last)), Hys, Htr, Hs1.
      rewrite <- !app_assoc. cbn [app]. split; [reflexivity|].
      rewrite !count_app.
      rewrite (count_none is_refresh is_exchange xs Hxs exchange_not_refresh).
      rewrite (count_none is_refresh is_attempt ys Hatt attempt_not_refresh).
      rewrite (count_none is_attempt is_exchange xs Hxs exchange_not_attempt).
      split; [reflexivity|].
      pose proof (count_le_length is_attempt ys). lia.
    + exists xs. rewrite Hrun. cbn [fst]. rewrite Htr, Hs1.
      rewrite <- !app_assoc. cbn [app]. split; [reflexivity|].
      rewrite (count_none is_refresh is_exchange xs Hxs exchange_not_refresh).
      rewrite (count_none is_attempt is_exchange xs Hxs exchange_not_attempt).
      split; [reflexivity | lia].
  - intros s2 ex Href. rewrite Href in *. cbn [fst snd] in *.
    split; [exact Hrun|].
    rewrite Htr, count_app.
    change (RefreshCall :: xs) with ([RefreshCall] ++ xs)%list.
    rewrite count_app.
    rewrite (count_none is_attempt is_exchange xs Hxs exchange_not_attempt).
    cbn. lia.
  - intros s2 creds' e3 r2 c2 Href Hcreds' req2 Hreq2.
    rewrite Href in *. cbn [fst snd] in *.
    pose proof (request_last_turn s2 url_ m body_ content_type accepted_mimes
                  (Some (r1, c1)) creds' e3 r2 c2 Hcreds' Hreq2) as Hlast.
    fold req2 in Hlast.
    assert (Hfinal : run = Request_check accepted_codes (Some (r2, c2))
                                         (after_attempt s2 req2 e3)).
    { rewrite Hrun. unfold bind at 1. now rewrite Hlast. }
    split; [|split; [exact Hfinal | split]].
    + destruct xs as [|x [|x' xs']]; cbn in Hout; try discriminate.
      destruct x as [[| |] exchange cur|]; try discriminate.
      exists exchange, cur. rewrite Hfinal, request_check_state.
      unfold after_attempt. cbn [trace]. rewrite Htr, Hs1, Hcreds'.
      rewrite <- !app_assoc. reflexivity.
    + intros codes Hcodes Hin. rewrite Hfinal, Hcodes.
      unfold Request_check, status_not_in. plumbing.
      assert (Hex : existsb (Z.eqb (status r2)) codes = true).
      { apply existsb_exists. exists (status r2). split; [assumption | apply Z.eqb_refl]. }
      rewrite Hex. reflexivity.
    + intros codes ds Hcodes Hst2 Hnotin Hds Hobj. rewrite Hfinal, Hcodes.
      unfold Request_check, status_not_in, raise_V2DiagnosticException. plumbing.
      assert (Hex : existsb (Z.eqb (status r2)) codes = false).
      { destruct (existsb _ codes) eqn:E; [|reflexivity].
        apply existsb_exists in E as (x & Hin & Hx).
        apply Z.eqb_eq in Hx. subst x. rewrite Hst2 in Hin. contradiction. }
      rewrite Hex. cbn [negb].
      destruct (new_diagnostic_error r2 c2 ds Hds) as [Htyped _].
      destruct (Htyped Hobj) as [msg Hmsg]. rewrite Hmsg. cbn [snd]. eauto.
Qed.

(** *** Request: the headers of every attempt (C8) *)

Lemma refresh_events_well_formed (url_ m : string) (body_ content_type : option string)
      (accepted_mimes : option (list string)) (s : Sys) :
  exists evs,
    trace (fst (_Refresh s)) = (trace s ++ evs)%list /\
    Forall (attempt_well_formed url_ m body_ content_type accepted_mimes) evs.
Proof.
  destruct (refresh_inv s) as (xs & Htr & Hxs & _ & _).
  exists (RefreshCall :: xs). split; [exact Htr|].
  constructor; [exact I|].
  apply Forall_forall. intros ev Hin.
  rewrite forallb_forall in Hxs. specialize (Hxs ev Hin).
  destruct ev as [[| |] ? ?|]; simpl in *; try exact I; discriminate.
Qed.

Lemma request_loop_events (retries : list bool) (url_ m : string)
      (body_ content_type : option string) (accepted_mimes : option (list string)) :
  forall (last : option (Response * string)) (s : Sys),
  exists evs,
    trace (fst (Request_loop retries last url_ m body_ content_type
                             accepted_mimes s)) = (trace s ++ evs)%list /\
    Forall (attempt_well_formed url_ m body_ content_type accepted_mimes) evs.
Proof.
  induction retries as [|retry rest IH]; intros last s.
  - exists []. cbn. now rewrite app_nil_r.
  - cbn [Request_loop]. unfold bind at 1. unfold getattr at 1.
    destruct (_bearer_creds (this s)) as [creds|] eqn:Hcreds;
      [|exists []; cbn; now rewrite app_nil_r].
    unfold bind at 1. unfold http at 1.
    fold (attempt_request creds url_ m body_ content_type accepted_mimes).
    set (req := attempt_request creds url_ m body_ content_type accepted_mimes).
    assert (Hfirst : attempt_well_formed url_ m body_ content_type accepted_mimes
                       (HttpCall InRequest req (_bearer_creds (this s)))).
    { rewrite Hcreds. now exists creds. }
    destruct (transport_request req (env s)) as [e1 [[r1 c1]|what]];
      cbn [of_reply fst];
      [|eexists [_]; cbn; split; [reflexivity | now constructor]].
    destruct (negb (status r1 =? UNAUTHORIZED));
      [eexists [_]; cbn; split; [reflexivity | now constructor]|].
    set (s1 := mkSys (this s) e1 _).
    unfold bind at 1.
    assert (Hturn : exists xs,
               trace (fst ((if retry then _Refresh else ret tt) s1))
               = (trace s1 ++ xs)%list /\
               Forall (attempt_well_formed url_ m body_ content_type accepted_mimes) xs).
    { destruct retry.
      - apply refresh_events_well_formed.
      - exists []. cbn. now rewrite app_nil_r. }
    destruct Hturn as (xs & Hxs & Hgood).
    destruct ((if retry then _Refresh else ret tt) s1) as [s2 [u|ex]];
      cbn [fst] in *.
    + destruct (IH (Some (r1, c1)) s2) as (ys & Hys & Hgood').
      exists (HttpCall InRequest req (_bearer_creds (this s)) :: xs ++ ys)%list.
      rewrite Hys, Hxs. subst s1. cbn [trace].
      rewrite <- !app_assoc. split; [reflexivity|].
      constructor; [assumption | now apply Forall_app].
    + exists (HttpCall InRequest req (_bearer_creds (this s)) :: xs)%list.
      rewrite Hxs. subst s1. cbn [trace].
      rewrite <- !app_assoc. split; [reflexivity|].
      now constructor.
Qed.

Lemma request_headers_content (creds : Bearer) (url_ m : string)
      (body_ content_type : option string) (accepted_mimes : option (list string)) :
  let h := headers (attempt_request creds url_ m body_ content_type accepted_mimes) in
  dict_get "Authorization" h = Some (Bearer_Get creds) /\
  dict_get "user-agent" h = Some USER_AGENT /\
  dict_get "content-type" h =
    (if truthy_opt body_ then Some (content_type_or_json content_type) else None) /\
  dict_get "Accept" h = option_map (join ",") accepted_mimes /\
  dict_get "content-length" h =
    (if (post_or_put m && negb (truthy_opt body_))%bool then Some "0" else None).
Proof.
  unfold attempt_request, request_headers, content_type_or_json. cbn [headers].
  fold (post_or_put m).
  destruct (truthy_opt body_); destruct accepted_mimes as [mimes|];
    destruct (post_or_put m); cbn [andb negb option_map];
    repeat split; try reflexivity.
  all: destruct content_type as [c|]; try reflexivity.
  all: unfold truthy_opt; destruct (truthy c); reflexivity.
Qed.

Lemma default_method_post_or_put (method_ body_ : option string) :
  (post_or_put (default_method method_ body_) && negb (truthy_opt body_))%bool =
  (given_post_or_put method_ && negb (truthy_opt body_))%bool.
Proof.
  unfold default_method, given_post_or_put.
  destruct method_ as [[|c g]|]; cbn [truthy_opt truthy negb];
    destruct (truthy_opt body_); reflexivity.
Qed.

(** The first turn of the loop invokes the transport with the request built
    from the credential of the object. *)
Lemma request_loop_first_attempt (retry : bool) (rest : list bool)
      (url_ m : string) (body_ content_type : option string)
      (accepted_mimes : option (list string))
      (last : option (Response * string)) (s : Sys) (creds : Bearer) :
  _bearer_creds (this s) = Some creds ->
  exists evs,
    trace (fst (Request_loop (retry :: rest) last url_ m body_ content_type
                             accepted_mimes s)) =
    (trace s ++
     HttpCall InRequest
       (attempt_request creds url_ m body_ content_type accepted_mimes)
       (Some creds) :: evs)%list.
Proof.
  intros Hcreds. cbn [Request_loop]. unfold bind at 1. unfold getattr at 1.
  rewrite Hcreds. unfold bind at 1. unfold http at 1.
  fold (attempt_request creds url_ m body_ content_type accepted_mimes).
  rewrite Hcreds.
  destruct (transport_request _ (env s)) as [e1 [[r1 c1]|what]];
    cbn [of_reply fst]; [|exists []; reflexivity].
  destruct (negb (status r1 =? UNAUTHORIZED)); [exists []; reflexivity|].
  unfold bind at 1.
  match goal with |- context [(if retry then _Refresh else ret tt) ?s1] =>
    assert (Hturn : exists xs,
               trace (fst ((if retry then _Refresh else ret tt) s1))
               = (trace s1 ++ xs)%list);
    [ destruct retry;
      [ destruct (refresh_inv s1) as (xs & Hxs & _);
        exists (RefreshCall :: xs); exact Hxs
      | exists []; cbn; now rewrite app_nil_r ]
    | destruct Hturn as (xs & Hxs);
      destruct ((if retry then _Refresh else ret tt) s1) as [s2 [u|ex]] ]
  end; cbn [fst trace] in *.
  - destruct (request_loop_events rest url_ m body_ content_type accepted_mimes
                (Some (r1, c1)) s2) as (ys & Hys & _).
    exists (xs ++ ys)%list. rewrite Hys, Hxs, <- !app_assoc. reflexivity.
  - exists xs. rewrite Hxs, <- !app_assoc. reflexivity.
Qed.

(** Without a credential the loop raises before any invocation. *)
Lemma request_loop_without_credential (retry : bool) (rest : list bool)
      (url_ m : string) (body_ content_type : option string)
      (accepted_mimes : option (list string))
      (last : option (Response * string)) (s : Sys) :
  _bearer_creds (this s) = None ->
  Request_loop (retry :: rest) last url_ m body_ content_type accepted_mimes s
  = (s, Raised (AttributeError "_bearer_creds")).
Proof.
  intros Hcreds. cbn [Request_loop]. unfold bind at 1. unfold getattr at 1.
  now rewrite Hcreds.
Qed.

(** C8. A call of [Request] on an object that holds a Bearer credential
    invokes the HTTP transport, first of all, with the request built from
    that credential: the given URL, the method in force, the body and the
    headers below. What the transport answers to that very request decides
    the call: an answer other than 401 is its result, and after a 401 and a
    Refresh that returns, the transport is invoked once more with the request
    built from the credential that is then current, whose answer is the
    result. Every attempt the call logs was sent while a Bearer credential
    was current and carries the headers built from it: the [Authorization]
    value of that credential and the fixed user agent; a [content-type]
    exactly when the body is present (the given content type, else
    [application/json]); an [Accept] header exactly when accepted MIME types
    are given, their comma-joined list; and [content-length: 0] exactly when
    the method is POST or PUT and no body is present (for the method in
    force as for the method given). An object without a credential raises
    [AttributeError] before any invocation. *)
Theorem request_headers_sent
        (s : Sys) (url_ : string) (accepted_codes : option (list Z))
        (method_ body_ content_type : option string)
        (accepted_mimes : option (list string)) :
  let m := default_method method_ body_ in
  let run := Request url_ accepted_codes method_ body_ content_type
                     accepted_mimes s in
  let attempt := fun creds =>
    attempt_request creds url_ m body_ content_type accepted_mimes in
  (exists evs,
      trace (fst run) = (trace s ++ evs)%list /\
      (forall req cur, In (HttpCall InRequest req cur) evs ->
        exists creds,
          cur = Some creds /\
          req = attempt creds /\
          url req = url_ /\ method req = m /\ body req = body_) /\
      match _bearer_creds (this s) with
      | Some creds =>
          exists rest, evs = HttpCall InRequest (attempt creds) (Some creds) :: rest
      | None => evs = [] /\ snd run = Raised (AttributeError "_bearer_creds")
      end) /\
  (forall creds e1 r1 c1,
      _bearer_creds (this s) = Some creds ->
      transport_request (attempt creds) (env s) = (e1, Replied (r1, c1)) ->
      (status r1 <> UNAUTHORIZED ->
       run = Request_check accepted_codes (Some (r1, c1))
                           (after_attempt s (attempt creds) e1)) /\
      (status r1 = UNAUTHORIZED ->
       forall s2 creds' e3 r2 c2,
         _Refresh (after_attempt s (attempt creds) e1) = (s2, Normal tt) ->
         _bearer_creds (this s2) = Some creds' ->
         transport_request (attempt creds') (env s2) = (e3, Replied (r2, c2)) ->
         run = Request_check accepted_codes (Some (r2, c2))
                             (after_attempt s2 (attempt creds') e3))) /\
  (forall creds,
      let h := headers (attempt creds) in
      dict_get "Authorization" h = Some (Bearer_Get creds) /\
      dict_get "user-agent" h = Some USER_AGENT /\
      dict_get "content-type" h =
        (if truthy_opt body_ then Some (content_type_or_json content_type)
         else None) /\
      dict_get "Accept" h = option_map (join ",") accepted_mimes /\
      dict_get "content-length" h =
        (if (post_or_put m && negb (truthy_opt body_))%bool then Some "0"
         else None)) /\
  (post_or_put m && negb (truthy_opt body_))%bool =
  (given_post_or_put method_ && negb (truthy_opt body_))%bool.
Proof.
  intros m run attempt. split; [|split; [|split]].
  - destruct (request_loop_events [true; false] url_ m body_ content_type
                accepted_mimes None s) as (evs & Htr & Hgood).
    exists evs. split; [|split].
    + unfold run, Request. fold m.
      now rewrite (then_check_state _ (fun last => last)).
    + intros req cur Hin. rewrite Forall_forall in Hgood.
      destruct (Hgood _ Hin) as (creds & Hcur & Hreq).
      exists creds. subst req. repeat split; assumption.
    + destruct (_bearer_creds (this s)) as [creds|] eqn:Hcreds.
      * destruct (request_loop_first_attempt true [false] url_ m body_
                    content_type accepted_mimes None s creds Hcreds)
          as (rest & Hrest).
        exists rest. rewrite Htr in Hrest.
        now apply app_inv_head in Hrest.
      * pose proof (request_loop_without_credential true [false] url_ m body_
                      content_type accepted_mimes None s Hcreds) as Hloop.
        split.
        -- rewrite Hloop in Htr. cbn [fst] in Htr.
           rewrite <- (app_nil_r (trace s)) in Htr at 1.
           apply app_inv_head in Htr. now symmetry.
        -- unfold run, Request. fold m. unfold bind at 1. now rewrite Hloop.
  - intros creds e1 r1 c1 Hcreds Hreq. split.
    + intros Hst. unfold run, Request. fold m. unfold bind at 1.
      cbn [Request_loop].
      unfold bind at 1. unfold getattr at 1. rewrite Hcreds.
      unfold bind at 1. unfold http at 1.
      fold (attempt_request creds url_ m body_ content_type accepted_mimes).
      fold (attempt creds). rewrite Hreq. cbn [of_reply fst].
      apply Z.eqb_neq in Hst. rewrite Hst. cbn [negb]. unfold ret.
      unfold after_attempt. now rewrite Hcreds.
    + intros Hst s2 creds' e3 r2 c2 Href Hcreds' Hreq2.
      pose proof (request_first_unauthorized s url_ accepted_codes method_ body_
                    content_type accepted_mimes creds e1 r1 c1 Hcreds Hreq Hst)
        as Hrun.
      fold m run in Hrun. fold (attempt creds) in Hrun.
      rewrite Href in Hrun. rewrite Hrun. unfold bind at 1.
      now rewrite (request_last_turn s2 url_ m body_ content_type accepted_mimes
                     (Some (r1, c1)) creds' e3 r2 c2 Hcreds' Hreq2).
  - intros creds. apply request_headers_content.
  - apply default_method_post_or_put.
Qed.

(** *** Request without accepted codes (C10) *)

(** The loop of [Request] ends with a response bound, or with an exception
    that is not the diagnostic error. *)
Lemma request_loop_inv (s : Sys) (url_ m : string)
      (body_ content_type : option string) (accepted_mimes : option (list string)) :
  match snd (Request_loop [true; false] None url_ m body_ content_type
                          accepted_mimes s) with
  | Raised ex => is_diagnostic_error ex = false
  | Normal None => False
  | Normal (Some _) => True
  end.
Proof.
  cbn [Request_loop]. unfold bind at 1. unfold getattr at 1.
  destruct (_bearer_creds (this s)) as [creds|]; [|reflexivity].
  unfold bind at 1. unfold http at 1.
  destruct (transport_request _ (env s)) as [e1 [[r1 c1]|what]];
    cbn [of_reply fst]; [|reflexivity].
  destruct (negb (status r1 =? UNAUTHORIZED)); [exact I|].
  unfold bind at 1.
  match goal with |- context [_Refresh ?s1] =>
    destruct (refresh_inv s1) as (xs & _ & _ & _ & Hout);
    destruct (_Refresh s1) as [s2 [u|ex]]
  end; cbn [snd] in *; [|exact Hout].
  destruct (request_last_turn_inv s2 url_ m body_ content_type accepted_mimes
              (Some (r1, c1))) as (_ & _ & _ & _ & Hlast).
  exact Hlast.
Qed.

(** C10. A call of [Request] that leaves [accepted_codes] at its default
    [None] never returns a response and never raises the diagnostic error;
    whenever its loop ends normally, the membership test on [None] raises
    [TypeError], and that is the result of the call. *)
Theorem request_without_accepted_codes
        (s : Sys) (url_ : string) (method_ body_ content_type : option string)
        (accepted_mimes : option (list string)) :
  let run := Request url_ None method_ body_ content_type accepted_mimes s in
  (forall page, snd run <> Normal page) /\
  (forall ex, snd run = Raised ex -> is_diagnostic_error ex = false) /\
  (forall s1 last,
      Request_loop [true; false] None url_ (default_method method_ body_)
                   body_ content_type accepted_mimes s = (s1, Normal last) ->
      run = (s1, Raised TypeError)).
Proof.
  intros run. subst run. unfold Request. unfold bind.
  pose proof (request_loop_inv s url_ (default_method method_ body_) body_
                content_type accepted_mimes) as Hinv.
  destruct (Request_loop _ _ _ _ _ _ _ s) as [s1 [[[resp content]|]|ex]];
    cbn [snd] in *; try contradiction.
  - cbn. repeat split; try discriminate.
    + intros ex Hex. now inversion Hex.
    + intros s1' last Heq. now inversion Heq.
  - repeat split; try discriminate.
    + intros ex' Hex. inversion Hex. now subst.
Qed.

(** *** The pattern of [ParseNextLinkHeader] (C7) *)



Lemma slice_slice (n m : nat) :
  forall s, slice_from n (slice_from m s) = slice_from (m + n) s.
Proof.
  induction m as [|m IH]; intros s; [reflexivity|].
  destruct s as [|c s]; cbn [slice_from Nat.add].
  - now destruct n.
  - apply IH.
Qed.


(** A greedy repetition hands some suffix of its input to what follows. *)
Lemma star_suffix {R} (p : ascii -> bool) (k : string -> option R) (r : R) :
  forall s, star p k s = Some r -> exists n, k (slice_from n s) = Some r.
Proof.
  induction s as [|c s IH]; cbn [star]; intros H.
  - now exists 0%nat.
  - destruct (p c).
    + destruct (star p k s) as [r'|] eqn:E.
      * destruct (IH H) as [n Hn]. now exists (S n).
      * now exists 0%nat.
    + now exists 0%nat.
Qed.




(** Past the group, the capture is final. *)
Lemma run_keeps_capture (pat : list atom) :
  no_groups pat = true ->
  forall cap c s, run pat cap s = Some c -> c = cap.
Proof.
  induction pat as [|a pat IH]; intros Hng cap c s H.
  - now inversion H.
  - cbn [no_groups forallb] in Hng. apply andb_true_iff in Hng as [Ha Hng].
    cbn [run] in H. destruct a as [ch|k|k| |]; try discriminate.
    + destruct s as [|b s]; [discriminate|].
      destruct (Ascii.eqb b ch); [|discriminate]. eapply IH; eauto.
    + apply star_suffix in H as [n Hn]. eapply IH; eauto.
    + destruct s as [|b s]; [discriminate|].
      destruct (in_class k b); [|discriminate].
      apply star_suffix in H as [n Hn]. eapply IH; eauto.
Qed.


(** *** Pagination (C7) *)

Lemma parse_next_none (resp : Response) :
  ParseNextLinkHeader resp = None ->
  forall g s, g_pc g = AtYield resp ->
    next g s = (s, Normal (at_pc g Finished, StopIteration)).
Proof.
  intros Hnone g s Hpc. unfold next. rewrite Hpc, Hnone. reflexivity.
Qed.



(** ** Further properties of the transport *)

(** *** The token loop of [_Ping] *)

Lemma fold_frame (tokens : list string) (tr : Transport) :
  _name (fold_left token_effect tokens tr) = _name tr /\
  _action (fold_left token_effect tokens tr) = _action tr /\
  _bearer_creds (fold_left token_effect tokens tr) = _bearer_creds tr.
Proof.
  revert tr. induction tokens as [|t rest IH]; intros tr; [now repeat split|].
  cbn [fold_left]. destruct (IH (token_effect tr t)) as (Hn & Ha & Hb).
  rewrite Hn, Ha, Hb. unfold token_effect.
  destruct (startswith t _REALM_PFX); [now repeat split|].
  destruct (startswith t _SERVICE_PFX); now repeat split.
Qed.

Lemma fold_service_set (tokens : list string) (tr : Transport) :
  _service tr <> None -> _service (fold_left token_effect tokens tr) <> None.
Proof.
  revert tr. induction tokens as [|t rest IH]; intros tr H; [exact H|].
  cbn [fold_left]. apply IH. unfold token_effect.
  destruct (startswith t _REALM_PFX); [exact H|].
  destruct (startswith t _SERVICE_PFX); [discriminate | exact H].
Qed.

Lemma startswith_realm_not_service (t : string) :
  startswith t _SERVICE_PFX = true -> startswith t _REALM_PFX = false.
Proof.
  unfold startswith. destruct t as [|c t]; [discriminate|].
  cbn [String.prefix _SERVICE_PFX _REALM_PFX].
  destruct (ascii_dec "s" c) as [<-|]; [reflexivity | discriminate].
Qed.

(** X1. The last token that starts with [realm=] decides the realm and the last
    one that starts with [service=] decides the service, whatever other
    tokens stand before, between or after them. *)
Theorem ping_tokens_last_wins (before after : list string) (t : string) (s : Sys) :
  let s' := fst (_Ping_tokens (before ++ t :: after) s) in
  (startswith t _REALM_PFX = true ->
   none_startswith _REALM_PFX after = true ->
   _realm (this s') =
     Some (strip dquote (slice_from (String.length _REALM_PFX) t))) /\
  (startswith t _SERVICE_PFX = true ->
   none_startswith _SERVICE_PFX after = true ->
   _service (this s') =
     Some (strip dquote (slice_from (String.length _SERVICE_PFX) t))).
Proof.
  intros s'. subst s'. rewrite ping_tokens_fold. cbn [fst this].
  rewrite fold_left_app. cbn [fold_left]. split.
  - intros Ht Hafter. rewrite (fold_keeps_realm _ _ Hafter).
    unfold token_effect. now rewrite Ht.
  - intros Ht Hafter. rewrite (fold_keeps_service _ _ Hafter).
    unfold token_effect.
    now rewrite (startswith_realm_not_service _ Ht), Ht.
Qed.

(** *** The ping: its one call and its rejections *)

(** What a ping that returns has seen. *)
Lemma ping_normal_inv (s s' : Sys) (u : unit) :
  _Ping s = (s', Normal u) ->
  exists e' resp content challenge,
    transport_request (ping_request (_name (this s))) (env s)
      = (e', Replied (resp, content)) /\
    status resp = UNAUTHORIZED /\
    dict_get "www-authenticate" (resp_headers resp) = Some challenge /\
    startswith challenge _CHALLENGE = true.
Proof.
  unfold _Ping, resp_getitem, _CheckState. plumbing.
  destruct (transport_request _ (env s)) as [e' [[resp content]|what]] eqn:Hreq;
    cbn [fst]; [|discriminate].
  destruct (status resp =? UNAUTHORIZED) eqn:Hst; cbn [negb]; [|discriminate].
  destruct (dict_get "www-authenticate" (resp_headers resp)) as [challenge|] eqn:Hhdr;
    [|discriminate].
  destruct (startswith challenge _CHALLENGE) eqn:Hpfx; cbn [negb]; [|discriminate].
  intros _. exists e', resp, content, challenge.
  apply Z.eqb_eq in Hst. now repeat split.
Qed.

(** X2. Whatever the registry answers, [_Ping] invokes the HTTP transport
    exactly once, with a GET of [scheme://registry/v2/] that has no body and
    no [Authorization] header; it does not enter [_Refresh] and leaves the
    name, the action and the credential slot of the object alone. *)
Theorem ping_one_call (s : Sys) :
  let s' := fst (_Ping s) in
  let req := ping_request (_name (this s)) in
  trace s' = (trace s ++ [HttpCall InPing req (_bearer_creds (this s))])%list /\
  _name (this s') = _name (this s) /\
  _action (this s') = _action (this s) /\
  _bearer_creds (this s') = _bearer_creds (this s) /\
  url req = Scheme (registry (_name (this s))) ++ "://" ++
            registry (_name (this s)) ++ "/v2/" /\
  method req = "GET" /\ body req = None /\
  dict_get "Authorization" (headers req) = None.
Proof.
  intros s' req. subst s' req.
  unfold _Ping, resp_getitem, _CheckState. plumbing.
  destruct (transport_request _ (env s)) as [e' [[resp content]|what]];
    cbn [fst this trace]; [|now repeat split].
  destruct (negb (status resp =? UNAUTHORIZED)); cbn [fst this trace];
    [now repeat split|].
  destruct (dict_get "www-authenticate" (resp_headers resp)) as [challenge|];
    cbn [fst this trace]; [|now repeat split].
  destruct (negb (startswith challenge _CHALLENGE)); cbn [fst this trace];
    [now repeat split|].
  rewrite ping_tokens_fold. cbn [this env trace].
  match goal with |- context [fold_left token_effect ?ts ?tr] =>
    destruct (fold_frame ts tr) as (Hn & Ha & Hb);
    destruct (_realm (fold_left token_effect ts tr)) as [realm|]
  end; cbn [fst this trace _name _action _bearer_creds] in *.
  - destruct (negb (truthy realm)); cbn [fst this trace]; now repeat split.
  - now repeat split.
Qed.

(** X3. A 401 without a [www-authenticate] header makes [_Ping] raise
    [KeyError]; a challenge that does not start with [Bearer ] makes it
    raise [BadStateException]; in both cases the object is as it was. A
    challenge whose deciding [realm=] token has an empty value makes it
    raise the [BadStateException] of its last check. *)
Theorem ping_rejections (s : Sys) (e' : Env) (resp : Response) (content : string) :
  transport_request (ping_request (_name (this s))) (env s)
    = (e', Replied (resp, content)) ->
  status resp = UNAUTHORIZED ->
  (dict_get "www-authenticate" (resp_headers resp) = None ->
   _Ping s = (after_ping s e', Raised (KeyError "www-authenticate"))) /\
  (forall challenge,
      dict_get "www-authenticate" (resp_headers resp) = Some challenge ->
      startswith challenge _CHALLENGE = false ->
      _Ping s = (after_ping s e',
                 Raised (BadStateException
                           ("Unexpected " ++ q ++ "www-authenticate" ++ q ++
                            " header: " ++ challenge)))) /\
  (forall challenge before t after,
      dict_get "www-authenticate" (resp_headers resp) = Some challenge ->
      startswith challenge _CHALLENGE = true ->
      split "," (slice_from (String.length _CHALLENGE) challenge)
        = (before ++ t :: after)%list ->
      startswith t _REALM_PFX = true ->
      none_startswith _REALM_PFX after = true ->
      strip dquote (slice_from (String.length _REALM_PFX) t) = EmptyString ->
      snd (_Ping s) = Raised (BadStateException (realm_expected challenge))).
Proof.
  intros Hreq Hst. split; [|split].
  - intros Hhdr. unfold _Ping, resp_getitem. plumbing. given Hreq.
    rewrite Hst. cbn [Z.eqb UNAUTHORIZED Pos.eqb _CheckState negb].
    now rewrite Hhdr.
  - intros challenge Hhdr Hpfx. unfold _Ping, resp_getitem. plumbing. given Hreq.
    rewrite Hst. cbn [Z.eqb UNAUTHORIZED Pos.eqb _CheckState negb].
    rewrite Hhdr, Hpfx. reflexivity.
  - intros challenge before t after Hhdr Hpfx Htokens Ht Hafter Hempty.
    rewrite (ping_challenge s e' resp content challenge Hreq Hst Hhdr Hpfx).
    cbn [snd]. unfold pinged, challenge_tokens. rewrite Htokens.
    rewrite fold_left_app. cbn [fold_left].
    rewrite (fold_keeps_realm _ _ Hafter).
    unfold token_effect at 1. rewrite Ht. cbn [_realm]. rewrite Hempty.
    reflexivity.
Qed.

(** *** The token exchange: what it writes, sends and rejects *)

(** X4. [_Refresh] never writes the name, the action, the realm or the service.
    When it raises, the whole object is as it was, the current credential
    included; when it returns, the only change is a new credential. *)
Theorem refresh_writes_credential_only (s : Sys) :
  let s' := fst (_Refresh s) in
  same_binding (this s') (this s) /\
  match snd (_Refresh s) with
  | Raised _ => this s' = this s
  | Normal _ => exists token, this s' = with_bearer (this s) (mkBearer token)
  end.
Proof.
  unfold _Refresh, _CheckState, loads, py_contains, py_getitem, same_binding.
  plumbing. cbn [this env trace].
  repeat branch; cbn [_name _action _realm _service];
    (split; [now repeat split|]);
    first [ reflexivity | congruence | eexists; reflexivity ].
Qed.

(** X5. The one call [_Refresh] can make is the token exchange: a GET without
    body of [realm?query], the query encoding the scope of the name for the
    action and the service, with the Basic credential as [Authorization]. It
    is made only once that credential has been obtained and the service and
    the realm are set, and it has been made whenever [_Refresh] returns. *)
Theorem refresh_exchange_request (s : Sys) :
  exists evs,
    trace (fst (_Refresh s)) = (trace s ++ RefreshCall :: evs)%list /\
    (evs = [] /\ (exists ex, snd (_Refresh s) = Raised ex) \/
     exists e1 auth service realm,
       basic_creds_Get (env s) = (e1, Replied auth) /\
       _service (this s) = Some service /\
       _realm (this s) = Some realm /\
       let req := refresh_request auth (_Scope (this s)) service realm in
       evs = [HttpCall InRefresh req (_bearer_creds (this s))] /\
       url req = realm ++ "?" ++
                 urlencode [("scope", scope (_name (this s)) (_action (this s)));
                            ("service", service)] /\
       method req = "GET" /\ body req = None /\
       dict_get "Authorization" (headers req) = Some auth).
Proof.
  unfold _Refresh. plumbing. cbn [this env trace].
  destruct (basic_creds_Get (env s)) as [e1 [auth|what]] eqn:Hget;
    cbn [this env trace fst snd];
    [|exists []; split; [reflexivity | left; eauto]].
  destruct (_service (this s)) as [service|] eqn:Hsvc;
    cbn [this env trace fst snd];
    [|exists []; split; [reflexivity | left; eauto]].
  destruct (_realm (this s)) as [realm|] eqn:Hrealm;
    cbn [this env trace fst snd];
    [|exists []; split; [reflexivity | left; eauto]].
  exists [HttpCall InRefresh (refresh_request auth (_Scope (this s)) service realm)
                   (_bearer_creds (this s))].
  split.
  - unfold _CheckState, loads, py_contains, py_getitem.
    repeat branch; rewrite <- app_assoc; reflexivity.
  - right. exists e1, auth, service, realm. now repeat split.
Qed.

(** X6. How [_Refresh] fails on an answer of the token endpoint. A status other
    than 200 raises [BadStateException] with the status and the body in its
    message, whatever the body. With status 200: a body that is not JSON
    raises the [ValueError] of [json.loads]; a body that decodes to [null],
    a boolean or a number raises [TypeError]; an array or string without
    [token] in it raises the [BadStateException] for a malformed response,
    and one with [token] in it passes that check and raises [TypeError] at
    the subscript. *)
Theorem refresh_rejections (s : Sys) (e1 e2 : Env)
        (auth service realm content : string) (resp : Response) :
  basic_creds_Get (env s) = (e1, Replied auth) ->
  _service (this s) = Some service ->
  _realm (this s) = Some realm ->
  transport_request (refresh_request auth (_Scope (this s)) service realm) e1
    = (e2, Replied (resp, content)) ->
  let req := refresh_request auth (_Scope (this s)) service realm in
  let failed ex := _Refresh s = (mkSys (this s) e2 (refresh_trace s req), Raised ex) in
  (status resp <> OK ->
   failed (BadStateException ("Bad status during token exchange: " ++
                              fmt_d (status resp) ++ nl ++ content))) /\
  (status resp = OK -> json_loads content = None -> failed ValueError) /\
  (status resp = OK ->
   forall v, json_loads content = Some v ->
     (scalar v = true -> failed TypeError) /\
     (forall has, py_contains "token" v = Normal has ->
        (forall items, v <> JObject items) ->
        failed (if has : bool then TypeError
                else BadStateException ("Malformed JSON response: " ++ content)))).
Proof.
  intros Hget Hsvc Hrealm Hreq req failed. subst req failed. cbv beta.
  assert (Hrun : _Refresh s =
    let s2 := mkSys (this s) e2
                    (refresh_trace s (refresh_request auth (_Scope (this s))
                                                      service realm)) in
    (check <- lift (_CheckState (status resp =? OK)
                      (Some ("Bad status during token exchange: " ++
                             fmt_d (status resp) ++ nl ++ content))) ;;
     wrapper_object <- lift (loads content) ;;
     has_token <- lift (py_contains "token" wrapper_object) ;;
     lift (_CheckState has_token (Some ("Malformed JSON response: " ++ content))) ;;
     token <- lift (py_getitem wrapper_object "token") ;;
     set_bearer_creds (mkBearer token)) s2).
  { unfold _Refresh. plumbing. cbn [this env trace].
    given Hget. given Hsvc. given Hrealm. given Hreq.
    cbn [this env trace]. rewrite ?Hsvc, ?Hrealm. reflexivity. }
  rewrite Hrun. clear Hrun. cbv zeta. split; [|split].
  - intros Hst. apply Z.eqb_neq in Hst. plumbing. rewrite Hst. reflexivity.
  - intros Hst Hjson. plumbing. unfold loads. rewrite Hst, Hjson. reflexivity.
  - intros Hst v Hjson. split.
    + intros Hv. plumbing. unfold loads. rewrite Hst, Hjson.
      destruct v; try discriminate; reflexivity.
    + intros has Hhas Hobj. plumbing. unfold loads. rewrite Hst, Hjson.
      cbn [Z.eqb OK Pos.eqb _CheckState negb]. rewrite Hhas.
      destruct has; cbn [_CheckState negb truthy_opt truthy].
      * destruct v; try discriminate; try reflexivity.
        now destruct (Hobj items).
      * reflexivity.
Qed.

(** *** Construction *)

(** What a token exchange that returns has done. *)
Lemma refresh_normal_inv (s s' : Sys) (u : unit) :
  _Refresh s = (s', Normal u) ->
  exists token req,
    this s' = with_bearer (this s) (mkBearer token) /\
    trace s' = (trace s ++ [RefreshCall;
                            HttpCall InRefresh req (_bearer_creds (this s))])%list.
Proof.
  unfold _Refresh, _CheckState, loads, py_contains, py_getitem.
  plumbing. cbn [this env trace].
  repeat branch; intros H; inversion H; subst; cbn [this trace].
  all: eexists; eexists; split; [reflexivity|].
  all: rewrite <- app_assoc; reflexivity.
Qed.

Lemma refresh_success (s : Sys) (e1 e2 : Env)
      (auth service realm content : string) (resp : Response)
      (items : list (string * json)) (token : json) :
  basic_creds_Get (env s) = (e1, Replied auth) ->
  _service (this s) = Some service ->
  _realm (this s) = Some realm ->
  transport_request (refresh_request auth (_Scope (this s)) service realm) e1
    = (e2, Replied (resp, content)) ->
  status resp = OK ->
  json_loads content = Some (JObject items) ->
  dict_get "token" items = Some token ->
  _Refresh s =
  (mkSys (with_bearer (this s) (mkBearer token)) e2
         (refresh_trace s (refresh_request auth (_Scope (this s)) service realm)),
   Normal tt).
Proof.
  intros Hget Hsvc Hrealm Hreq Hst Hjson Htok.
  unfold _Refresh. plumbing. cbn [this env trace].
  given Hget. given Hsvc. given Hrealm. given Hreq.
  rewrite Hst. cbn [Z.eqb OK Pos.eqb _CheckState negb].
  unfold loads. rewrite Hjson. cbn [py_contains py_getitem].
  rewrite (existsb_key_present _ _ _ Htok), Htok. reflexivity.
Qed.

(** X7. Every object the constructor returns is ready for use: its action is
    one of [ACTIONS], its realm is set and not empty, its service and its
    Bearer credential are set, and the constructor has invoked the HTTP
    transport exactly twice, for the ping and then for the token
    exchange. *)
Theorem constructed_transport_ready (name : Name) (action : string)
        (e e' : Env) (t : list event) (obj : Transport) :
  Transport_new name action e = (e', t, Normal obj) ->
  In action ACTIONS /\
  _name obj = name /\ _action obj = action /\
  (exists realm, _realm obj = Some realm /\ truthy realm = true) /\
  (exists service, _service obj = Some service) /\
  (exists creds, _bearer_creds obj = Some creds) /\
  (exists exchange,
      t = [HttpCall InPing (ping_request name) None; RefreshCall;
           HttpCall InRefresh exchange None]).
Proof.
  unfold Transport_new, __init__.
  unfold bind at 1. unfold set_self at 1. cbv beta iota.
  unfold bind at 1. unfold lift at 1. cbn [this env trace].
  destruct (existsb (String.eqb action) ACTIONS) eqn:Hact;
    cbv beta iota delta [_CheckState negb]; [|discriminate].
  apply existsb_eqb_In in Hact.
  set (s0 := mkSys (mkTransport name action None None None) e []).
  unfold bind at 1.
  destruct (_Ping s0) as [s1 [u|ex]] eqn:Hping; [|discriminate].
  destruct (ping_normal_inv s0 s1 u Hping)
    as (e1 & resp & content & challenge & Hreq & Hst & Hhdr & Hpfx).
  rewrite (ping_challenge s0 e1 resp content challenge Hreq Hst Hhdr Hpfx) in Hping.
  destruct (fold_frame (challenge_tokens challenge)
              (mkTransport name action None (Some (registry name)) None))
    as (Hn & Ha & Hb).
  assert (Hs : _service (pinged (this s0) challenge) <> None)
    by (apply fold_service_set; discriminate).
  destruct (_realm (pinged (this s0) challenge)) as [realm|] eqn:Hrealm;
    [|discriminate].
  unfold _CheckState in Hping.
  destruct (truthy realm) eqn:Htruthy; cbn [negb] in Hping; [|discriminate].
  inversion Hping as [[Hs1 Hu]]. clear Hping.
  destruct (_Refresh _) as [s2 [u2|ex]] eqn:Href; [|discriminate].
  destruct (refresh_normal_inv _ _ _ Href) as (token & exchange & Hthis & Htrace).
  intros H. inversion H. subst e' t obj. clear H.
  rewrite Hthis, Htrace. cbn [this trace with_bearer _name _action _realm
                              _service _bearer_creds].
  unfold pinged in *. cbn [this s0 _name _action _realm _bearer_creds] in *.
  rewrite Hn, Ha, Hb, Hrealm.
  repeat split; try assumption; eauto.
  - destruct (_service _) as [service|]; [eauto | contradiction].
  - now exists exchange.
Qed.

Lemma pinged_pair (tr : Transport) (R S challenge : string) :
  plain R = true -> plain S = true ->
  challenge = _CHALLENGE ++ attr "realm" R ++ "," ++ attr "service" S \/
  challenge = _CHALLENGE ++ attr "service" S ++ "," ++ attr "realm" R ->
  pinged tr challenge =
  mkTransport (_name tr) (_action tr) (Some R) (Some S) (_bearer_creds tr).
Proof.
  intros HR HS Hform. unfold pinged.
  destruct Hform as [-> | ->];
    rewrite challenge_tokens_pair
      by (apply attr_no_comma; [reflexivity | assumption]);
    cbn [fold_left];
    rewrite ?token_effect_realm, ?token_effect_service by assumption;
    rewrite ?token_effect_realm, ?token_effect_service by assumption;
    reflexivity.
Qed.

(** X8. Construction end to end. For an action of [ACTIONS], a ping answered 401
    with a challenge naming realm [R] and service [S], and a token endpoint
    that answers the exchange [GET R?scope=..&service=S] (sent with the
    Basic credential) with 200 and an object holding a [token]: the
    constructor returns an object bound to [R] and [S] whose credential
    wraps that token, after exactly those two calls. *)
Theorem construction_succeeds (name : Name) (action : string)
        (e e1 e2 e3 : Env) (resp xresp : Response)
        (content xcontent challenge R S auth : string)
        (items : list (string * json)) (token : json) :
  In action ACTIONS ->
  transport_request (ping_request name) e = (e1, Replied (resp, content)) ->
  status resp = UNAUTHORIZED ->
  dict_get "www-authenticate" (resp_headers resp) = Some challenge ->
  challenge = _CHALLENGE ++ attr "realm" R ++ "," ++ attr "service" S \/
  challenge = _CHALLENGE ++ attr "service" S ++ "," ++ attr "realm" R ->
  plain R = true -> plain S = true -> truthy R = true ->
  basic_creds_Get e1 = (e2, Replied auth) ->
  transport_request (refresh_request auth (scope name action) S R) e2
    = (e3, Replied (xresp, xcontent)) ->
  status xresp = OK ->
  json_loads xcontent = Some (JObject items) ->
  dict_get "token" items = Some token ->
  Transport_new name action e =
  (e3,
   [HttpCall InPing (ping_request name) None; RefreshCall;
    HttpCall InRefresh (refresh_request auth (scope name action) S R) None],
   Normal (mkTransport name action (Some R) (Some S) (Some (mkBearer token)))).
Proof.
  intros Hact Hreq Hst Hhdr Hform HR HS HRne Hget Hx Hxst Hjson Htok.
  assert (Hpfx : startswith challenge _CHALLENGE = true)
    by (destruct Hform as [-> | ->]; reflexivity).
  unfold Transport_new, __init__.
  apply existsb_eqb_In in Hact.
  unfold bind at 1. unfold set_self at 1. cbv beta iota.
  unfold bind at 1. unfold lift at 1. rewrite Hact.
  cbv beta iota delta [_CheckState negb].
  unfold bind at 1. cbn [this env trace].
  rewrite (ping_challenge
             (mkSys (mkTransport name action None None None) e [])
             e1 resp content challenge Hreq Hst Hhdr Hpfx).
  cbn [this env trace].
  rewrite (pinged_pair _ R S challenge HR HS Hform).
  cbn [_realm _name _action _bearer_creds]. unfold _CheckState at 1.
  rewrite HRne. cbn [negb].
  erewrite refresh_success; cbn [this env trace _service _realm]; eauto.
  reflexivity.
Qed.

(** *** Request: the direct path, its bounds and what it returns *)

Lemma existsb_Zeqb_In (x : Z) (l : list Z) :
  existsb (Z.eqb x) l = true <-> In x l.
Proof.
  rewrite existsb_exists. split.
  - intros (y & Hin & Hy). apply Z.eqb_eq in Hy. now subst.
  - intros Hin. exists x. split; [assumption | apply Z.eqb_refl].
Qed.

Lemma existsb_Zeqb_not_In (x : Z) (l : list Z) :
  existsb (Z.eqb x) l = false <-> ~ In x l.
Proof.
  rewrite <- existsb_Zeqb_In. destruct (existsb (Z.eqb x) l); split;
    congruence.
Qed.

(** The outcome of the statements after the loop. *)
Lemma request_check_outcome (codes : list Z) (resp : Response) (content : string)
      (s : Sys) :
  (In (status resp) codes ->
   Request_check (Some codes) (Some (resp, content)) s = (s, Normal (resp, content))) /\
  (~ In (status resp) codes ->
   forall ds, _DiagnosticsFromContent content = Normal ds ->
     snd (Request_check (Some codes) (Some (resp, content)) s) =
     if forallb object_backed ds
     then Raised (V2DiagnosticException resp ds
                    (join nl (("response: " ++ resp_str resp) ::
                              map (fun d =>
                                     match _error d with
                                     | JObject fields =>
                                         py_str (field_or_none "message" fields) ++ ": " ++
                                         py_str (field_or_none "detail" fields)
                                     | _ => EmptyString
                                     end) ds)))
     else Raised (AttributeError "get")).
Proof.
  unfold Request_check, status_not_in, raise_V2DiagnosticException. plumbing.
  split.
  - intros Hin. apply existsb_Zeqb_In in Hin. now rewrite Hin.
  - intros Hout ds Hds. apply existsb_Zeqb_not_In in Hout. rewrite Hout.
    cbn [negb]. unfold new_V2DiagnosticException. rewrite Hds. cbn [obind].
    rewrite diagnostic_lines.
    destruct (forallb object_backed ds); reflexivity.
Qed.

(** X9. When the first answer is not 401, [Request] has invoked the HTTP
    transport exactly once, has not entered [_Refresh] and has left the
    object as it was. It returns that answer when its status is accepted;
    otherwise it raises the diagnostic error built from that answer (when
    the decoded diagnostics all wrap objects). *)
Theorem request_without_refresh
        (s : Sys) (url_ : string) (accepted_codes : option (list Z))
        (method_ body_ content_type : option string)
        (accepted_mimes : option (list string))
        (creds : Bearer) (e1 : Env) (r1 : Response) (c1 : string) :
  let m := default_method method_ body_ in
  let req1 := attempt_request creds url_ m body_ content_type accepted_mimes in
  let run := Request url_ accepted_codes method_ body_ content_type
                     accepted_mimes s in
  _bearer_creds (this s) = Some creds ->
  transport_request req1 (env s) = (e1, Replied (r1, c1)) ->
  status r1 <> UNAUTHORIZED ->
  fst run = mkSys (this s) e1 (trace s ++ [HttpCall InRequest req1 (Some creds)]) /\
  (forall codes,
      accepted_codes = Some codes -> In (status r1) codes ->
      snd run = Normal (r1, c1)) /\
  (forall codes ds,
      accepted_codes = Some codes -> ~ In (status r1) codes ->
      _DiagnosticsFromContent c1 = Normal ds ->
      forallb object_backed ds = true ->
      exists msg, snd run = Raised (V2DiagnosticException r1 ds msg)).
Proof.
  intros m req1 run Hcreds Hreq Hst.
  assert (Hrun : run = Request_check accepted_codes (Some (r1, c1))
                                     (after_attempt s req1 e1)).
  { unfold run, Request. fold m. unfold bind at 1. cbn [Request_loop].
    unfold bind at 1. unfold getattr at 1. rewrite Hcreds.
    unfold bind at 1. unfold http at 1.
    fold (attempt_request creds url_ m body_ content_type accepted_mimes).
    fold req1. rewrite Hreq. cbn [of_reply fst].
    apply Z.eqb_neq in Hst. rewrite Hst. cbn [negb]. unfold ret.
    unfold after_attempt. now rewrite Hcreds. }
  split; [|split].
  - rewrite Hrun, request_check_state. unfold after_attempt. now rewrite Hcreds.
  - intros codes Hcodes Hin. rewrite Hrun, Hcodes.
    now rewrite (proj1 (request_check_outcome codes r1 c1 _) Hin).
  - intros codes ds Hcodes Hout Hds Hobj. rewrite Hrun, Hcodes.
    rewrite (proj2 (request_check_outcome codes r1 c1 _) Hout ds Hds), Hobj.
    eauto.
Qed.

Lemma count_cons (p : event -> bool) (ev : event) (evs : list event) :
  count p (ev :: evs) = ((if p ev then 1 else 0) + count p evs)%nat.
Proof. unfold count. cbn [filter]. now destruct (p ev). Qed.

(** X10. Whatever the collaborators do, one call of [Request] invokes the HTTP
    transport at most three times: at most two attempts of the request and
    at most one token exchange, inside the at most one [_Refresh]. *)
Theorem request_call_bounds
        (s : Sys) (url_ : string) (accepted_codes : option (list Z))
        (method_ body_ content_type : option string)
        (accepted_mimes : option (list string)) :
  let run := Request url_ accepted_codes method_ body_ content_type
                     accepted_mimes s in
  exists evs,
    trace (fst run) = (trace s ++ evs)%list /\
    (count is_attempt evs <= 2)%nat /\
    (count is_refresh evs <= 1)%nat /\
    (count is_exchange evs <= count is_refresh evs)%nat /\
    (count is_http evs <= 3)%nat.
Proof.
  intros run. subst run. unfold Request.
  rewrite (then_check_state _ (fun last => last)).
  set (m := default_method method_ body_).
  cbn [Request_loop]. unfold bind at 1. unfold getattr at 1.
  destruct (_bearer_creds (this s)) as [creds|];
    [|exists []; cbn; rewrite app_nil_r; repeat split; lia].
  unfold bind at 1. unfold http at 1.
  destruct (transport_request _ (env s)) as [e1 [[r1 c1]|what]];
    cbn [of_reply fst];
    [|eexists [_]; split; [reflexivity | cbn; repeat split; lia]].
  destruct (negb (status r1 =? UNAUTHORIZED));
    [eexists [_]; split; [reflexivity | cbn; repeat split; lia]|].
  unfold bind at 1.
  match goal with |- context [_Refresh ?s1] =>
    destruct (refresh_inv s1) as (xs & Hxs & Hex & Hxlen & _);
    destruct (_Refresh s1) as [s2 [u|ex]]
  end; cbn [fst snd trace] in *.
  - destruct (request_last_turn_inv s2 url_ m body_ content_type accepted_mimes
                (Some (r1, c1))) as (ys & Hys & Hatt & Hylen & _).
    cbv zeta in Hys. cbn [Request_loop] in Hys.
    eexists (_ :: RefreshCall :: xs ++ ys)%list.
    rewrite Hys, Hxs, <- !app_assoc. cbn [app]. split; [reflexivity|].
    rewrite !count_cons, !count_app. cbn [is_attempt is_refresh is_exchange is_http].
    rewrite (count_none is_attempt is_exchange xs Hex exchange_not_attempt).
    rewrite (count_none is_refresh is_exchange xs Hex exchange_not_refresh).
    rewrite (count_none is_refresh is_attempt ys Hatt attempt_not_refresh).
    assert (Hxy : count is_exchange ys = 0%nat).
    { apply (count_none is_exchange is_attempt ys Hatt).
      intros [[| |] ? ?|]; simpl; congruence. }
    rewrite Hxy.
    pose proof (count_le_length is_attempt ys).
    pose proof (count_le_length is_http xs).
    pose proof (count_le_length is_http ys).
    pose proof (count_le_length is_exchange xs).
    repeat split; lia.
  - eexists (_ :: RefreshCall :: xs)%list.
    rewrite Hxs, <- !app_assoc. cbn [app]. split; [reflexivity|].
    rewrite !count_cons. cbn [is_attempt is_refresh is_exchange is_http].
    rewrite (count_none is_attempt is_exchange xs Hex exchange_not_attempt).
    rewrite (count_none is_refresh is_exchange xs Hex exchange_not_refresh).
    pose proof (count_le_length is_http xs).
    pose proof (count_le_length is_exchange xs).
    repeat split; lia.
Qed.


(** What [_Refresh] does to the object, in one statement for the proofs
    about [Request]. *)
Lemma refresh_object (s : Sys) :
  same_binding (this (fst (_Refresh s))) (this s).
Proof.
  unfold _Refresh, _CheckState, loads, py_contains, py_getitem, same_binding.
  plumbing. cbn [this env trace].
  repeat branch; cbn [_name _action _realm _service]; now repeat split.
Qed.

(** X12. [Request] never writes the name, the action, the realm or the service
    of the object, and a call that does not enter [_Refresh] leaves the
    whole object, its credential included, as it was. *)
Theorem request_keeps_binding
        (s : Sys) (url_ : string) (accepted_codes : option (list Z))
        (method_ body_ content_type : option string)
        (accepted_mimes : option (list string)) :
  let run := Request url_ accepted_codes method_ body_ content_type
                     accepted_mimes s in
  same_binding (this (fst run)) (this s) /\
  (count is_refresh (new_events s (fst run)) = 0%nat ->
   this (fst run) = this s).
Proof.
  intros run. subst run. unfold Request.
  rewrite (then_check_state _ (fun last => last)).
  set (m := default_method method_ body_).
  assert (Hnew : forall evs s',
             trace s' = (trace s ++ evs)%list -> new_events s s' = evs).
  { intros evs s' H. unfold new_events. rewrite H.
    now rewrite skipn_app, skipn_all, Nat.sub_diag. }
  assert (Hrefl : same_binding (this s) (this s)) by (now repeat split).
  destruct (Request_loop [true; false] None url_ m body_ content_type
                         accepted_mimes s) as [s' out] eqn:HL.
  cbn [fst]. cbn [Request_loop] in HL.
  unfold bind at 1 in HL. unfold getattr at 1 in HL.
  destruct (_bearer_creds (this s)) as [creds|];
    [|inversion HL; subst; now split].
  unfold bind at 1 in HL. unfold http at 1 in HL.
  destruct (transport_request _ (env s)) as [e1 [[r1 c1]|what]];
    cbn [of_reply fst this] in HL; [|inversion HL; subst; now split].
  destruct (negb (status r1 =? UNAUTHORIZED));
    [inversion HL; subst; now split|].
  unfold bind at 1 in HL.
  match type of HL with context [_Refresh ?s1] =>
    pose proof (refresh_object s1) as Hobj;
    destruct (refresh_inv s1) as (xs & Hxs & _);
    destruct (_Refresh s1) as [s2 [u|ex]]
  end; cbn [fst snd this trace] in *.
  - pose proof (request_last_turn_inv s2 url_ m body_ content_type accepted_mimes
                  (Some (r1, c1))) as (ys & Hys & _).
    cbv zeta in Hys. cbn [Request_loop] in Hys.
    assert (Hthis : this (fst (Request_loop [false] (Some (r1, c1)) url_ m body_
                                 content_type accepted_mimes s2)) = this s2).
    { cbn [Request_loop]. plumbing. repeat branch; reflexivity. }
    cbn [Request_loop] in Hthis. rewrite HL in Hys, Hthis. cbn [fst] in *.
    rewrite Hthis. split; [exact Hobj|].
    erewrite Hnew
      by (rewrite Hys, Hxs, <- !app_assoc; cbn [app]; reflexivity).
    rewrite !count_cons. cbn [is_refresh]. lia.
  - inversion HL; subst. split; [exact Hobj|].
    erewrite Hnew by (rewrite Hxs, <- !app_assoc; cbn [app]; reflexivity).
    rewrite !count_cons. cbn [is_refresh]. lia.
Qed.

(** *** The decoder on other shapes, and the constructor of the error *)


(** X14. Building the diagnostic error: the constructor decodes the body and
    returns the exception, carrying the response and the decoded
    diagnostics, exactly when every diagnostic wraps an object; its message
    is then the response line followed by one [message: detail] line per
    diagnostic, in their order. When some diagnostic wraps anything else the
    constructor itself raises [AttributeError]. On a body that does not
    decode it always returns, with the synthetic diagnostic. *)
Theorem diagnostic_error_constructor (resp : Response) (content : string) :
  (exists ds,
      _DiagnosticsFromContent content = Normal ds /\
      new_V2DiagnosticException resp content =
      if forallb object_backed ds
      then Normal (V2DiagnosticException resp ds
                     (join nl (("response: " ++ resp_str resp) ::
                               map diagnostic_line ds)))
      else Raised (AttributeError "get")) /\
  (json_loads content = None ->
   new_V2DiagnosticException resp content =
   Normal (V2DiagnosticException resp [synthetic content]
             ("response: " ++ resp_str resp ++ nl ++
              py_str (JString content) ++ ": " ++ py_str JNull))).
Proof.
  split.
  - destruct (decoder_total content) as [ds Hds]. exists ds.
    split; [exact Hds|].
    unfold new_V2DiagnosticException. rewrite Hds. cbn [obind].
    rewrite diagnostic_lines.
    destruct (forallb object_backed ds); reflexivity.
  - intros Hnone. unfold new_V2DiagnosticException.
    rewrite (decoder_unparsed content Hnone). reflexivity.
Qed.

(** *** [ParseNextLinkHeader]: what it returns, and when *)

Lemma star_split {R} (p : ascii -> bool) (k : string -> option R) (r : R) :
  forall s, star p k s = Some r ->
            exists a b, s = a ++ b /\ all_chars p a = true /\ k b = Some r.
Proof.
  induction s as [|c s IH]; cbn [star]; intros H.
  - exists EmptyString, EmptyString. now repeat split.
  - destruct (p c) eqn:Hc.
    + destruct (star p k s) as [r'|] eqn:E.
      * destruct (IH H) as (a & b & -> & Ha & Hb).
        exists (String c a), b. cbn. rewrite Hc, Ha. now repeat split.
      * exists EmptyString, (String c s). now repeat split.
    + exists EmptyString, (String c s). now repeat split.
Qed.

Lemma run_lit_split (w : string) (post : list atom) (cap c : capture) :
  forall s, run (lit w ++ post) cap s = Some c ->
            exists s', s = w ++ s' /\ run post cap s' = Some c.
Proof.
  unfold lit. induction w as [|a w IH]; intros s H.
  - now exists s.
  - cbn [list_ascii_of_string map app run] in H.
    destruct s as [|b s]; [discriminate|].
    destruct (Ascii.eqb b a) eqn:E; [|discriminate].
    apply Ascii.eqb_eq in E. subst b.
    destruct (IH s H) as (s' & -> & Hs'). now exists s'.
Qed.

Lemma length_append (a b : string) :
  String.length (a ++ b) = (String.length a + String.length b)%nat.
Proof. induction a as [|c a IH]; cbn; [reflexivity | now rewrite IH]. Qed.

Lemma take_append (a b : string) :
  take (String.length (a ++ b) - String.length b) (a ++ b) = a.
Proof.
  rewrite length_append.
  replace (String.length a + String.length b - String.length b)%nat
    with (String.length a) by lia.
  induction a as [|c a IH]; cbn; [now destruct b | now rewrite IH].
Qed.

Lemma all_dot_no_newline (s : string) :
  all_chars (in_class Dot) s = true <-> has_char newline s = false.
Proof.
  induction s as [|c s IH]; cbn; [now split|].
  rewrite andb_true_iff, orb_false_iff, IH, negb_true_iff. reflexivity.
Qed.

(** X15. Whatever [ParseNextLinkHeader] returns stands in the link header
    between a [<] and the [>;] that is followed, after optional white space,
    by [rel="next"]; it is not empty and holds no newline. *)
Theorem next_link_is_delimited (resp : Response) (u : string) :
  ParseNextLinkHeader resp = Some u ->
  exists link pre ws rest,
    dict_get "link" (resp_headers resp) = Some link /\
    link = pre ++ "<" ++ u ++ ">;" ++ ws ++ rel_next ++ rest /\
    truthy u = true /\ has_char newline u = false /\
    all_chars (in_class Space) ws = true.
Proof.
  unfold ParseNextLinkHeader.
  destruct (dict_get "link" (resp_headers resp)) as [link|];
    cbn [truthy_opt negb]; [|discriminate].
  destruct (truthy link); cbn [negb]; [|discriminate].
  unfold re_match_group1.
  destruct (run next_link_pattern _ link) as [c|] eqn:E; [|discriminate].
  intros Hu.
  change next_link_pattern
    with (Star Dot ::
          (lit "<" ++ GroupOpen :: Plus Dot :: GroupClose ::
           (lit ">;" ++ Star Space :: (lit rel_next ++ [Star Dot]))))%list in E.
  cbn [run] in E.
  apply star_split in E as (pre & b & -> & _ & E).
  apply run_lit_split in E as (s2 & -> & E).
  cbn [run] in E.
  destruct s2 as [|ch s3]; [discriminate|].
  destruct (in_class Dot ch) eqn:Hch; [|discriminate].
  apply star_split in E as (a' & b' & -> & Ha' & E).
  cbn [run] in E.
  pose proof E as Hcap. apply run_keeps_capture in Hcap; [|reflexivity].
  apply run_lit_split in E as (b2 & -> & E).
  cbn [run] in E.
  apply star_split in E as (ws & b3 & -> & Hws & E).
  apply run_lit_split in E as (rest & -> & _).
  subst c. unfold close_group in Hu. cbn [cap_open cap_text] in Hu.
  change (String ch (a' ++ ">;" ++ ws ++ rel_next ++ rest))
    with (String ch a' ++ (">;" ++ ws ++ rel_next ++ rest)) in Hu.
  rewrite take_append in Hu. inversion Hu. subst u.
  exists (pre ++ "<" ++ String ch a' ++ ">;" ++ ws ++ rel_next ++ rest),
         pre, ws, rest.
  repeat split; try assumption.
  apply all_dot_no_newline. cbn [all_chars]. now rewrite Hch, Ha'.
Qed.

(** A repetition followed by something that fails on every shorter rest of
    the input stops where the input starts. *)
Lemma star_only_here {R} (p : ascii -> bool) (k : string -> option R) :
  forall s, (forall n, k (slice_from (S n) s) = None) -> star p k s = k s.
Proof.
  induction s as [|c s IH]; intros Hnone; [reflexivity|].
  cbn [star]. destruct (p c); [|reflexivity].
  rewrite IH.
  - pose proof (Hnone 0%nat) as H0. cbn [slice_from] in H0. now rewrite H0.
  - intros n. apply (Hnone (S n)).
Qed.

Lemma star_through {R} (p : ascii -> bool) (k : string -> option R) (r : R)
      (a b : string) :
  all_chars p a = true ->
  (forall n, k (slice_from (S n) b) = None) ->
  k b = Some r ->
  star p k (a ++ b) = Some r.
Proof.
  intros Ha Hnone Hb. induction a as [|c a IH].
  - cbn [append]. now rewrite star_only_here.
  - cbn [all_chars] in Ha. apply andb_true_iff in Ha as [Hc Ha].
    cbn [append star]. now rewrite Hc, (IH Ha).
Qed.

Lemma chr_fails_without (c : ascii) (pat : list atom) (cap : capture) :
  forall s n, has_char c s = false ->
              run (Chr c :: pat) cap (slice_from n s) = None.
Proof.
  induction s as [|a s IH]; intros n H.
  - now destruct n.
  - cbn [has_char] in H. apply orb_false_iff in H as [Ha Hs].
    destruct n as [|n]; cbn [slice_from run].
    + now rewrite Ha.
    + now apply IH.
Qed.

(** X16. For every URL [U] that is not empty and holds neither [<] nor a newline,
    [ParseNextLinkHeader] returns [U] on a response whose link header is
    [<U>; rel="next"]. *)
Theorem next_link_of_single_entry (resp : Response) (U : string) :
  dict_get "link" (resp_headers resp) = Some ("<" ++ U ++ next_suffix) ->
  truthy U = true ->
  has_char "<" U = false ->
  has_char newline U = false ->
  ParseNextLinkHeader resp = Some U.
Proof.
  intros Hhdr Hne Hlt Hnl. unfold ParseNextLinkHeader. rewrite Hhdr.
  cbn [truthy_opt append truthy negb]. unfold re_match_group1.
  set (tail_pattern := skipn 5 next_link_pattern).
  set (cap0 := mkCapture None None).
  change next_link_pattern
    with (Star Dot :: Chr "<" :: GroupOpen :: Plus Dot :: GroupClose ::
          tail_pattern).
  change (run (Star Dot :: Chr "<" :: GroupOpen :: Plus Dot :: GroupClose ::
               tail_pattern) cap0 (String "<" (U ++ next_suffix)))
    with (star (in_class Dot)
               (run (Chr "<" :: GroupOpen :: Plus Dot :: GroupClose ::
                     tail_pattern) cap0)
               (String "<" (U ++ next_suffix))).
  rewrite star_only_here.
  2:{ intros n. cbn [slice_from]. apply chr_fails_without.
      rewrite has_char_app, Hlt. reflexivity. }
  destruct U as [|ch U']; [discriminate|].
  cbn [has_char] in Hnl. apply orb_false_iff in Hnl as [Hch HU'].
  set (cap1 := mkCapture (Some (String ch U' ++ next_suffix)) None).
  assert (Hgroup : star (in_class Dot) (run (GroupClose :: tail_pattern) cap1)
                        (U' ++ next_suffix)
                   = Some (close_group cap1 next_suffix)).
  { apply star_through.
    - now apply all_dot_no_newline.
    - intros n. do 13 (destruct n as [|n]; [reflexivity|]).
      destruct n; reflexivity.
    - reflexivity. }
  cbn [run append]. rewrite Ascii.eqb_refl.
  cbn [in_class]. rewrite Hch. cbn [negb cap_text cap0].
  cbn [run] in Hgroup. unfold cap1 in Hgroup. cbn [append] in Hgroup.
  rewrite Hgroup. unfold close_group. cbn [cap_open cap_text].
  change (String ch (U' ++ next_suffix)) with (String ch U' ++ next_suffix).
  now rewrite take_append.
Qed.

(** *** Pagination: following the links *)

Lemma next_of_page (g : generator) (u : string) :
  next_page_of g = Some u -> next g = PaginatedRequest_while g (Some u).
Proof.
  unfold next_page_of, next. destruct (g_pc g); intros H.
  - now inversion H.
  - now rewrite H.
  - discriminate.
Qed.

Lemma pages_walk (accepted_codes : option (list Z))
      (method_ body_ content_type : option string)
      (s s' : Sys) (u : string) (ps : list (Response * string))
      (stop : option exn) :
  walk accepted_codes method_ body_ content_type s u ps s' stop ->
  forall g fuel,
    called_with g accepted_codes method_ body_ content_type ->
    next_page_of g = Some u ->
    (List.length ps < fuel)%nat ->
    pages fuel g s =
    (s', match stop with None => Normal (Some ps) | Some ex => Raised ex end).
Proof.
  induction 1 as [s s' u page Hu Hreq Hnone
                 |s s' u ex Hu Hreq
                 |s s1 s' u u' page rest stop Hu Hreq Hsome Hwalk IH];
    intros g fuel (Hc & Hm & Hb & Ht) Hnext Hfuel.
  - destruct fuel as [|[|fuel]]; cbn [List.length] in Hfuel; try lia.
    cbn [pages]. unfold bind at 1. rewrite (next_of_page g u Hnext).
    unfold PaginatedRequest_while at 1. cbn [truthy_opt]. rewrite Hu.
    rewrite Hc, Hm, Hb, Ht. unfold bind at 1. rewrite Hreq. unfold ret at 1.
    unfold bind at 1. unfold bind at 1.
    rewrite (parse_next_none (fst page) Hnone); reflexivity.
  - destruct fuel as [|fuel]; cbn [List.length] in Hfuel; try lia.
    cbn [pages]. unfold bind at 1. rewrite (next_of_page g u Hnext).
    unfold PaginatedRequest_while at 1. cbn [truthy_opt]. rewrite Hu.
    rewrite Hc, Hm, Hb, Ht. unfold bind at 1. now rewrite Hreq.
  - destruct fuel as [|fuel]; cbn [List.length] in Hfuel; try lia.
    cbn [pages]. unfold bind at 1. rewrite (next_of_page g u Hnext).
    unfold PaginatedRequest_while at 1. cbn [truthy_opt]. rewrite Hu.
    rewrite Hc, Hm, Hb, Ht. unfold bind at 1. rewrite Hreq. unfold ret at 1.
    unfold bind at 1.
    rewrite (IH (at_pc g (AtYield (fst page))) fuel);
      [destruct stop; reflexivity | now repeat split | exact Hsome | lia].
Qed.

(** X17. [PaginatedRequest] follows the links: when the registry serves a chain
    of pages, each naming the next in its link header, the traversal yields
    exactly those pages in order, with one [Request] per page, and ends in
    the state the last [Request] left. When a [Request] of the chain raises,
    the traversal ends with that exception. An empty URL gives no page and
    no call at all. *)
Theorem pages_follow_links (accepted_codes : option (list Z))
        (method_ body_ content_type : option string) (s : Sys) :
  (forall u ps s' fuel,
      walk accepted_codes method_ body_ content_type s u ps s' None ->
      (List.length ps < fuel)%nat ->
      pages fuel (PaginatedRequest u accepted_codes method_ body_ content_type) s
      = (s', Normal (Some ps))) /\
  (forall u ps s' ex fuel,
      walk accepted_codes method_ body_ content_type s u ps s' (Some ex) ->
      (List.length ps < fuel)%nat ->
      pages fuel (PaginatedRequest u accepted_codes method_ body_ content_type) s
      = (s', Raised ex)) /\
  (forall fuel,
      pages (S fuel)
            (PaginatedRequest EmptyString accepted_codes method_ body_ content_type) s
      = (s, Normal (Some []))).
Proof.
  split; [|split].
  - intros u ps s' fuel Hwalk Hfuel.
    now apply (pages_walk _ _ _ _ _ _ _ _ _ Hwalk).
  - intros u ps s' ex fuel Hwalk Hfuel.
    now apply (pages_walk _ _ _ _ _ _ _ _ _ Hwalk).
  - intros fuel. reflexivity.
Qed.

(** *** From construction to the first request *)

(** X18. On an object the constructor has returned, the first thing [Request]
    does is to send the request with the Bearer credential obtained by the
    token exchange of the constructor: the credential slot is set, so the
    call never fails for a missing credential before reaching the HTTP
    transport. *)
Theorem first_request_after_construction (name : Name) (action : string)
        (e e' : Env) (t : list event) (obj : Transport)
        (url_ : string) (accepted_codes : option (list Z))
        (method_ body_ content_type : option string)
        (accepted_mimes : option (list string)) :
  Transport_new name action e = (e', t, Normal obj) ->
  exists creds evs,
    _bearer_creds obj = Some creds /\
    trace (fst (Request url_ accepted_codes method_ body_ content_type
                        accepted_mimes (mkSys obj e' t))) =
    (t ++ HttpCall InRequest
            (attempt_request creds url_ (default_method method_ body_) body_
                             content_type accepted_mimes)
            (Some creds) :: evs)%list.
Proof.
  intros Hnew.
  assert (Hcreds : exists creds, _bearer_creds obj = Some creds).
  { revert Hnew. unfold Transport_new, __init__.
    unfold bind at 1. unfold set_self at 1. cbv beta iota.
    unfold bind at 1. unfold lift at 1.
    destruct (_CheckState _ _) as [u0|ex0]; [|discriminate].
    unfold bind at 1.
    destruct (_Ping _) as [s1 [u|ex]]; [|discriminate].
    destruct (_Refresh s1) as [s2 [u2|ex]] eqn:Href; [|discriminate].
    destruct (refresh_normal_inv _ _ _ Href) as (token & req & Hthis & _).
    intros H. inversion H. subst. rewrite Hthis. cbn. eauto. }
  destruct Hcreds as [creds Hcreds]. exists creds.
  enough (exists evs,
             trace (fst (Request url_ accepted_codes method_ body_ content_type
                                 accepted_mimes (mkSys obj e' t))) =
             (t ++ HttpCall InRequest
                     (attempt_request creds url_ (default_method method_ body_)
                                      body_ content_type accepted_mimes)
                     (Some creds) :: evs)%list) as [evs Hevs]
    by (exists evs; split; assumption).
  unfold Request. rewrite (then_check_state _ (fun last => last)).
  set (m := default_method method_ body_).
  cbn [Request_loop]. unfold bind at 1. unfold getattr at 1.
  cbn [this]. rewrite Hcreds.
  unfold bind at 1. unfold http at 1. cbn [this env trace].
  fold (attempt_request creds url_ m body_ content_type accepted_mimes).
  rewrite Hcreds.
  destruct (transport_request _ e') as [e1 [[r1 c1]|what]];
    cbn [of_reply fst]; [|exists []; reflexivity].
  destruct (negb (status r1 =? UNAUTHORIZED)); [exists []; reflexivity|].
  unfold bind at 1.
  match goal with |- context [_Refresh ?s1] =>
    destruct (refresh_inv s1) as (xs & Hxs & _);
    destruct (_Refresh s1) as [s2 [u|ex]]
  end; cbn [fst snd trace] in *.
  - destruct (request_last_turn_inv s2 url_ m body_ content_type accepted_mimes
                (Some (r1, c1))) as (ys & Hys & _).
    cbv zeta in Hys. cbn [Request_loop] in Hys.
    exists (RefreshCall :: xs ++ ys)%list.
    rewrite Hys, Hxs, <- !app_assoc. reflexivity.
  - exists (RefreshCall :: xs)%list. rewrite Hxs, <- !app_assoc. reflexivity.
Qed.

End Registry.

Arguments this {Env} _.
Arguments env {Env} _.
Arguments trace {Env} _.

(** ** Running the embedding *)

Example fmt_d_401 : fmt_d 401 = "401".
Proof. reflexivity. Qed.

Example split_two : split "," "a,,b" = ["a"; EmptyString; "b"].
Proof. reflexivity. Qed.

Example strip_quotes : strip dquote (q ++ "abc" ++ q) = "abc".
Proof. reflexivity. Qed.

Example next_link_example :
  ParseNextLinkHeader
    (mkResponse 200 [("link", "<https://x/y?page=2>; rel=" ++ q ++ "next" ++ q)])
  = Some "https://x/y?page=2".
Proof. reflexivity. Qed.

Example next_link_two_entries :
  ParseNextLinkHeader
    (mkResponse 200 [("link", "<https://x/1>; rel=" ++ q ++ "prev" ++ q ++
                              ", <https://x/3>; rel=" ++ q ++ "next" ++ q)])
  = Some "https://x/3".
Proof. reflexivity. Qed.

Example decode_token :
  decode ("{" ++ q ++ "token" ++ q ++ ":" ++ q ++ "abc123" ++ q ++ "}")
  = Some (JObject [("token", JString "abc123")]).
Proof. reflexivity. Qed.

Example decode_errors :
  decode ("{" ++ q ++ "errors" ++ q ++ ": [{" ++ q ++ "code" ++ q ++ ":" ++ q
          ++ "X" ++ q ++ ", " ++ q ++ "message" ++ q ++ ":" ++ q ++ "m" ++ q
          ++ "}, 7]}")
  = Some (JObject [("errors",
                    JArray [JObject [("code", JString "X");
                                     ("message", JString "m")]; JInt 7])]).
Proof. reflexivity. Qed.

Example decode_not_json : decode "not json" = None.
Proof. reflexivity. Qed.

(** ** The theorems at the test doubles *)

Local Notation "'world'" := (mkSys script).
Local Notation "'Transport_new''" :=
  (Transport_new script scripted fixed_basic decode plain_urlencode agent).
Local Notation "'_Ping''" := (_Ping script scripted agent).
Local Notation "'_Refresh''" :=
  (_Refresh script scripted fixed_basic decode plain_urlencode agent).
Local Notation "'Request''" :=
  (Request script scripted fixed_basic decode plain_urlencode show
           show_response agent).
Local Notation "'decoder''" := (_DiagnosticsFromContent decode).

(** The decoder on the error body of the spec, on a body whose [errors]
    array holds a number, and on a body that is not JSON. *)
Lemma diagnostics_from_content_witness :
  (decoder' error_body = Normal [mkDiagnostic (JObject error_fields)] /\
   code (mkDiagnostic (JObject error_fields)) = Normal (JString "X") /\
   message (mkDiagnostic (JObject error_fields)) = Normal (JString "m") /\
   detail (mkDiagnostic (JObject error_fields)) = Normal (JString "d")) /\
  (decoder' number_error_body = Normal [mkDiagnostic (JInt 7)] /\
   code (mkDiagnostic (JInt 7)) = Raised (AttributeError "get") /\
   message (mkDiagnostic (JInt 7)) = Raised (AttributeError "get") /\
   detail (mkDiagnostic (JInt 7)) = Raised (AttributeError "get")) /\
  exists d, decoder' "not json" = Normal [d] /\
            code d = Normal (JString "UNKNOWN") /\
            message d = Normal (JString "not json").
Proof.
  split; [|split].
  - destruct (proj1 (proj2 (diagnostics_from_content_spec decode error_body))
                [("errors", JArray [JObject error_fields])]
                [JObject error_fields] eq_refl eq_refl) as [Hlist Hfields].
    split; [exact Hlist|].
    exact (proj2 (Hfields (JObject error_fields) (or_introl eq_refl))).
  - destruct (proj1 (proj2 (diagnostics_from_content_spec decode
                              number_error_body))
                [("errors", JArray [JInt 7])]
                [JInt 7] eq_refl eq_refl) as [Hlist Hfields].
    split; [exact Hlist|].
    exact (proj2 (Hfields (JInt 7) (or_introl eq_refl))).
  - apply (proj2 (proj2 (diagnostics_from_content_spec decode "not json"))).
    reflexivity.
Defined.

(** The quoted text of the spec is a JSON string: it decodes, but not to an
    object, and the decoder answers with the synthetic diagnostic all the
    same. *)
Example decoder_quoted_text :
  decoder' (q ++ "not json" ++ q) = Normal [synthetic (q ++ "not json" ++ q)].
Proof. reflexivity. Qed.

(** The values of the enumeration: [PUSH] and [DELETE] are both the scope
    [push,pull]. *)
Example actions_values : ACTIONS = ["pull"; "push,pull"; "push,pull"; "catalog"].
Proof. reflexivity. Qed.

(** The constructor on an action that is not in [ACTIONS]. *)
Lemma invalid_action_witness :
  Transport_new' busybox "list" [challenge_reply challenge_realm_service; token_reply] =
  ([challenge_reply challenge_realm_service; token_reply], [],
   Raised (BadStateException
             "Invalid action supplied to docker_http.Transport: list")).
Proof.
  apply (invalid_action_rejected script scripted fixed_basic decode
           plain_urlencode agent busybox "list").
  unfold ACTIONS, PULL, PUSH, DELETE, CATALOG. simpl.
  intros [H|[H|[H|[H|[]]]]]; discriminate.
Defined.

(** The constructor against a registry that answers the ping with 200. *)
Lemma ping_requires_unauthorized_witness :
  Transport_new' busybox PULL [ok_reply; token_reply] =
  ([token_reply], [HttpCall InPing (ping_request agent busybox) None],
   Raised (BadStateException "Unexpected status: 200")).
Proof.
  refine (proj1 (proj2 (ping_requires_unauthorized script scripted fixed_basic
            decode plain_urlencode agent busybox PULL [ok_reply; token_reply]
            [token_reply] (fst ok_reply) (snd ok_reply) eq_refl _)) _).
  - discriminate.
  - left. reflexivity.
Defined.

(** The token exchange against an endpoint that answers with the body of
    the spec, against one whose body has no [token] member, and against one
    whose body is [null]. *)
Lemma refresh_token_exchange_witness :
  (exists s', _Refresh' (world authed [token_reply] []) = (s', Normal tt) /\
              _bearer_creds (this s') = Some (mkBearer (JString "abc123"))) /\
  (exists s' msg,
      _Refresh' (world authed [(mkResponse 200 [], no_token_body)] [])
        = (s', Raised (BadStateException msg)) /\
      _bearer_creds (this s') = Some (mkBearer (JString "old"))) /\
  (exists s',
      _Refresh' (world authed [null_reply] []) = (s', Raised TypeError) /\
      _bearer_creds (this s') = Some (mkBearer (JString "old"))).
Proof.
  split; [|split].
  - eexists. split.
    + refine (proj1 (refresh_token_exchange script scripted fixed_basic decode
                plain_urlencode agent (world authed [token_reply] [])
                [token_reply] [] "Basic dXNlcjpwYXNz" "registry.example.com"
                auth_realm token_body (mkResponse 200 [])
                (JObject [("token", JString "abc123")])
                eq_refl eq_refl eq_refl eq_refl eq_refl eq_refl)
                [("token", JString "abc123")] (JString "abc123")
                eq_refl eq_refl).
    + reflexivity.
  - eexists. eexists. split.
    + refine (proj1 (proj2 (refresh_token_exchange script scripted fixed_basic
                decode plain_urlencode agent
                (world authed [(mkResponse 200 [], no_token_body)] [])
                [(mkResponse 200 [], no_token_body)] []
                "Basic dXNlcjpwYXNz" "registry.example.com"
                auth_realm no_token_body (mkResponse 200 [])
                (JObject [("access", JString "abc123")])
                eq_refl eq_refl eq_refl eq_refl eq_refl eq_refl))
                [("access", JString "abc123")] eq_refl eq_refl).
    + reflexivity.
  - eexists. split.
    + refine (proj1 (proj2 (proj2 (refresh_token_exchange script scripted
                fixed_basic decode plain_urlencode agent
                (world authed [null_reply] [])
                [null_reply] []
                "Basic dXNlcjpwYXNz" "registry.example.com"
                auth_realm "null" (mkResponse 200 []) JNull
                eq_refl eq_refl eq_refl eq_refl eq_refl eq_refl))) eq_refl).
    + reflexivity.
Defined.

(** The constructor against a registry whose challenge names no realm. *)
Lemma ping_without_realm_token_witness :
  Transport_new' busybox PULL [challenge_reply challenge_no_realm; token_reply] =
  ([token_reply], [HttpCall InPing (ping_request agent busybox) None],
   Raised (AttributeError "_realm")).
Proof.
  apply (ping_without_realm_token script scripted fixed_basic decode
           plain_urlencode agent busybox PULL
           [challenge_reply challenge_no_realm; token_reply] [token_reply]
           (fst (challenge_reply challenge_no_realm)) EmptyString
           challenge_no_realm).
  - left. reflexivity.
  - reflexivity.
  - reflexivity.
  - reflexivity.
  - reflexivity.
  - reflexivity.
Defined.

(** The ping on both orders of the attributes and on a challenge without a
    service. *)
Lemma ping_reads_challenge_witness :
  (exists s',
      _Ping' (world fresh [challenge_reply challenge_realm_service] [])
        = (s', Normal tt) /\
      _realm (this s') = Some auth_realm /\ _service (this s') = Some "svc") /\
  (exists s',
      _Ping' (world fresh [challenge_reply challenge_service_realm] [])
        = (s', Normal tt) /\
      _realm (this s') = Some auth_realm /\ _service (this s') = Some "svc") /\
  _service (this (fst (_Ping' (world fresh [challenge_reply challenge_no_service] []))))
    = Some "registry.example.com".
Proof.
  split; [|split].
  - apply (proj1 (ping_reads_challenge script scripted agent
             (world fresh [challenge_reply challenge_realm_service] []) []
             (fst (challenge_reply challenge_realm_service)) EmptyString
             challenge_realm_service eq_refl eq_refl eq_refl)
             auth_realm "svc" eq_refl eq_refl eq_refl).
    left. reflexivity.
  - apply (proj1 (ping_reads_challenge script scripted agent
             (world fresh [challenge_reply challenge_service_realm] []) []
             (fst (challenge_reply challenge_service_realm)) EmptyString
             challenge_service_realm eq_refl eq_refl eq_refl)
             auth_realm "svc" eq_refl eq_refl eq_refl).
    right. reflexivity.
  - apply (proj2 (ping_reads_challenge script scripted agent
             (world fresh [challenge_reply challenge_no_service] []) []
             (fst (challenge_reply challenge_no_service)) EmptyString
             challenge_no_service eq_refl eq_refl eq_refl) eq_refl eq_refl).
Defined.

(** C5 fails on white space: with a space after the comma the token
    [ service="svc"] does not start with [service=], so the ping returns
    normally with the service left at the registry host, not [svc]. *)
Lemma ping_spaced_challenge_counterexample :
  exists s',
    _Ping' (world fresh [challenge_reply challenge_spaced] []) = (s', Normal tt) /\
    _realm (this s') = Some auth_realm /\
    _service (this s') = Some "registry.example.com" /\
    _service (this s') <> Some "svc".
Proof.
  exists (fst (_Ping' (world fresh [challenge_reply challenge_spaced] []))).
  vm_compute. repeat split. discriminate.
Defined.

(** With the attributes in the other order the space hides the realm. *)
Example ping_spaced_realm :
  snd (_Ping' (world fresh [challenge_reply
                 (_CHALLENGE ++ attr "service" "svc" ++ ", " ++
                  attr "realm" auth_realm)] []))
  = Raised (AttributeError "_realm").
Proof. reflexivity. Qed.

Local Notation "'attempt''" := (attempt_request show agent).
Local Notation "'pages''" :=
  (pages script scripted fixed_basic decode plain_urlencode show
         show_response agent).

(** [Request] against 401, a successful token exchange, and 401 again. *)
Lemma request_unauthorized_retry_witness :
  let run := Request' manifest_url (Some [200]) None None None None
                      (world authed [unauthorized; token_reply; unauthorized] []) in
  (exists exchange cur,
      trace (fst run) =
      [HttpCall InRequest (attempt' old_creds manifest_url "GET" None None None)
                (Some old_creds);
       RefreshCall;
       HttpCall InRefresh exchange cur;
       HttpCall InRequest (attempt' new_creds manifest_url "GET" None None None)
                (Some new_creds)]) /\
  (exists msg,
      snd run = Raised (V2DiagnosticException (fst unauthorized)
                                              [synthetic "denied"] msg)) /\
  count is_http (trace (fst run)) = 3%nat.
Proof.
  pose proof (request_unauthorized_retry script scripted fixed_basic decode
                plain_urlencode show show_response agent
                (world authed [unauthorized; token_reply; unauthorized] [])
                manifest_url (Some [200]) None None None None
                old_creds [token_reply; unauthorized] (fst unauthorized) "denied"
                eq_refl eq_refl eq_refl) as (_ & _ & Hretry).
  specialize (Hretry
    (fst (_Refresh' (after_attempt script
            (world authed [unauthorized; token_reply; unauthorized] [])
            (attempt' old_creds manifest_url "GET" None None None)
            [token_reply; unauthorized])))
    new_creds [] (fst unauthorized) "denied" eq_refl eq_refl eq_refl).
  destruct Hretry as (Htrace & _ & _ & Hdiag).
  split; [exact Htrace | split].
  - apply (Hdiag [200] [synthetic "denied"] eq_refl eq_refl).
    + intros [H|[]]. discriminate.
    + reflexivity.
    + reflexivity.
  - reflexivity.
Defined.

(** C1 fails when the HTTP transport answers 401 twice in a row: the second
    answer is the one to the token exchange of [_Refresh], which raises
    [BadStateException]; the request is not retried and the call does not
    fail with the diagnostic error. *)
Lemma request_two_unauthorized_counterexample :
  let run := Request' manifest_url (Some [200]) None None None None
                      (world authed [unauthorized; unauthorized] []) in
  snd run = Raised (BadStateException
                      ("Bad status during token exchange: 401" ++ nl ++ "denied")) /\
  count is_http (trace (fst run)) = 2%nat /\
  count is_refresh (trace (fst run)) = 1%nat /\
  count is_attempt (trace (fst run)) = 1%nat /\
  (forall resp ds msg, snd run <> Raised (V2DiagnosticException resp ds msg)).
Proof.
  vm_compute. repeat split. intros resp ds msg H. discriminate H.
Defined.

(** [Request] answered 401 and then, after the exchange, 200. *)
Example request_refreshed :
  let run := Request' manifest_url (Some [200]) None None None None
                      (world authed [unauthorized; token_reply; ok_reply] []) in
  snd run = Normal ok_reply /\
  count is_refresh (trace (fst run)) = 1%nat /\
  count is_http (trace (fst run)) = 3%nat /\
  _bearer_creds (this (fst run)) = Some new_creds.
Proof. vm_compute. repeat split. Qed.

(** The second 401 carries an [errors] array whose element is a number: the
    constructor of the diagnostic error reads [d.message] on it and raises
    [AttributeError] itself. *)
Example request_malformed_errors :
  snd (Request' manifest_url (Some [200]) None None None None
                (world authed
                       [unauthorized; token_reply;
                        (mkResponse 401 [], "{" ++ q ++ "errors" ++ q ++ ":[7]}")]
                       []))
  = Raised (AttributeError "get").
Proof. reflexivity. Qed.

(** A PUT without a body, with accepted MIME types, answered 200: the
    request the transport is invoked with, and the result of the call. *)
Lemma request_headers_sent_witness :
  let run := Request' manifest_url (Some [200]) (Some "PUT") None
                      (Some "text/plain") (Some ["a/b"; "c/d"])
                      (world authed [ok_reply] []) in
  let sent := mkRequest manifest_url "PUT" None
                        [("Authorization", "Bearer old"); ("user-agent", agent);
                         ("Accept", "a/b,c/d"); ("content-length", "0")] in
  (exists rest,
      trace (fst run) = HttpCall InRequest sent (Some old_creds) :: rest) /\
  run = (world authed [] [HttpCall InRequest sent (Some old_creds)],
         Normal ok_reply).
Proof.
  pose proof (request_headers_sent script scripted fixed_basic decode
                plain_urlencode show show_response agent
                (world authed [ok_reply] []) manifest_url (Some [200])
                (Some "PUT") None (Some "text/plain") (Some ["a/b"; "c/d"]))
    as H.
  cbv zeta in H. destruct H as ((evs & Htr & _ & Hfirst) & Hsent & _ & _).
  cbv zeta. split.
  - cbn [this _bearer_creds authed] in Hfirst. destruct Hfirst as [rest Hrest].
    exists rest. rewrite Htr, Hrest. reflexivity.
  - destruct (Hsent old_creds [] (fst ok_reply) (snd ok_reply) eq_refl eq_refl)
      as [Hok _].
    rewrite Hok; [reflexivity | discriminate].
Defined.

(** A call that leaves [accepted_codes] out, answered 200. *)
Lemma request_without_accepted_codes_witness :
  Request' manifest_url None None None None None (world authed [ok_reply] []) =
  (world authed []
         [HttpCall InRequest (attempt' old_creds manifest_url "GET" None None None)
                   (Some old_creds)],
   Raised TypeError).
Proof.
  apply (proj2 (proj2 (request_without_accepted_codes script scripted
           fixed_basic decode plain_urlencode show show_response agent
           (world authed [ok_reply] []) manifest_url None None None None))
           _ (Some ok_reply)).
  reflexivity.
Defined.


(** Two pages: the first names the second in its link header. *)
Example two_pages :
  snd (pages' 3%nat (PaginatedRequest manifest_url (Some [200]) None None None)
              (world authed [(mkResponse 200 [("link", example_link)], "one");
                             (mkResponse 200 [("link", prev_link)], "two")] []))
  = Normal (Some [(mkResponse 200 [("link", example_link)], "one");
                  (mkResponse 200 [("link", prev_link)], "two")]).
Proof. reflexivity. Qed.

(** The scenario at the end of the spec: ping, exchange, one request. *)
Example end_to_end :
  match Transport_new' busybox PULL
          [challenge_reply challenge_realm_service; token_reply; ok_reply] with
  | (e, t, Normal obj) =>
      let run := Request' manifest_url (Some [200]) None None None None
                          (world obj e t) in
      snd run = Normal ok_reply /\ count is_http (trace (fst run)) = 3%nat
  | _ => False
  end.
Proof. vm_compute. split; reflexivity. Qed.

Example scheme_localhost : Scheme "localhost:5000" = "http".
Proof. reflexivity. Qed.

Example scheme_remote : Scheme "registry.example.com" = "https".
Proof. reflexivity. Qed.

(** ** The further properties at the test doubles *)

Local Notation "'_Ping_tokens''" := (_Ping_tokens script).
Local Notation "'new_error''" := (new_V2DiagnosticException decode show show_response).
Local Notation "'walk''" :=
  (walk script scripted fixed_basic decode plain_urlencode show show_response agent).

(** Two [realm=] tokens and a [service=] token among others. *)
Lemma ping_tokens_last_wins_witness :
  let tokens := ["realm=x"; attr "realm" auth_realm; attr "service" "svc"; "a=b"] in
  _realm (this (fst (_Ping_tokens' tokens (world fresh [] [])))) = Some auth_realm /\
  _service (this (fst (_Ping_tokens' tokens (world fresh [] [])))) = Some "svc".
Proof.
  split.
  - apply (proj1 (ping_tokens_last_wins script ["realm=x"]
                    [attr "service" "svc"; "a=b"] (attr "realm" auth_realm)
                    (world fresh [] []))); reflexivity.
  - apply (proj2 (ping_tokens_last_wins script
                    ["realm=x"; attr "realm" auth_realm] ["a=b"]
                    (attr "service" "svc") (world fresh [] []))); reflexivity.
Defined.

(** A 401 without challenge, a Basic challenge, and an empty realm. *)
Lemma ping_rejections_witness :
  snd (_Ping' (world fresh [(mkResponse 401 [], EmptyString)] []))
    = Raised (KeyError "www-authenticate") /\
  snd (_Ping' (world fresh [challenge_reply "Basic realm=x"] []))
    = Raised (BadStateException
                ("Unexpected " ++ q ++ "www-authenticate" ++ q ++
                 " header: Basic realm=x")) /\
  snd (_Ping' (world fresh [challenge_reply (_CHALLENGE ++ attr "realm" EmptyString)] []))
    = Raised (BadStateException
                (realm_expected (_CHALLENGE ++ attr "realm" EmptyString))).
Proof.
  split; [|split].
  - rewrite (proj1 (ping_rejections script scripted agent
                      (world fresh [(mkResponse 401 [], EmptyString)] []) []
                      (mkResponse 401 []) EmptyString eq_refl eq_refl) eq_refl).
    reflexivity.
  - rewrite (proj1 (proj2 (ping_rejections script scripted agent
                      (world fresh [challenge_reply "Basic realm=x"] []) []
                      (fst (challenge_reply "Basic realm=x")) EmptyString
                      eq_refl eq_refl))
                   "Basic realm=x" eq_refl eq_refl).
    reflexivity.
  - apply (proj2 (proj2 (ping_rejections script scripted agent
                      (world fresh [challenge_reply
                                      (_CHALLENGE ++ attr "realm" EmptyString)] [])
                      []
                      (fst (challenge_reply (_CHALLENGE ++ attr "realm" EmptyString)))
                      EmptyString eq_refl eq_refl))
                 (_CHALLENGE ++ attr "realm" EmptyString) []
                 (attr "realm" EmptyString) []); reflexivity.
Defined.

(** The token endpoint answers 500, text, [null], and arrays with and
    without the string [token]. *)
Lemma refresh_rejections_witness :
  snd (_Refresh' (world authed [(mkResponse 500 [], "oops")] []))
    = Raised (BadStateException
                ("Bad status during token exchange: 500" ++ nl ++ "oops")) /\
  snd (_Refresh' (world authed [(mkResponse 200 [], "not json")] []))
    = Raised ValueError /\
  snd (_Refresh' (world authed [(mkResponse 200 [], "null")] []))
    = Raised TypeError /\
  snd (_Refresh' (world authed [(mkResponse 200 [], "[" ++ q ++ "token" ++ q ++ "]")] []))
    = Raised TypeError /\
  snd (_Refresh' (world authed [(mkResponse 200 [], "[]")] []))
    = Raised (BadStateException "Malformed JSON response: []").
Proof.
  pose (thm := fun reply_ =>
    refresh_rejections script scripted fixed_basic decode plain_urlencode agent
      (world authed [reply_] []) [reply_] [] "Basic dXNlcjpwYXNz"
      "registry.example.com" auth_realm (snd reply_) (fst reply_)
      eq_refl eq_refl eq_refl).
  split; [|split; [|split; [|split]]].
  - rewrite (proj1 (thm (mkResponse 500 [], "oops") eq_refl)).
    + reflexivity.
    + discriminate.
  - rewrite (proj1 (proj2 (thm (mkResponse 200 [], "not json") eq_refl))
                   eq_refl eq_refl).
    reflexivity.
  - rewrite (proj1 (proj2 (proj2 (thm (mkResponse 200 [], "null") eq_refl))
                          eq_refl JNull eq_refl) eq_refl).
    reflexivity.
  - rewrite (proj2 (proj2 (proj2 (thm (mkResponse 200 [],
                                       "[" ++ q ++ "token" ++ q ++ "]") eq_refl))
                          eq_refl (JArray [JString "token"]) eq_refl)
                   true eq_refl).
    + reflexivity.
    + discriminate.
  - rewrite (proj2 (proj2 (proj2 (thm (mkResponse 200 [], "[]") eq_refl))
                          eq_refl (JArray []) eq_refl)
                   false eq_refl).
    + reflexivity.
    + discriminate.
Defined.

(** The constructor against the sample registry. *)
Lemma constructed_transport_ready_witness :
  In PULL ACTIONS /\
  _name constructed = busybox /\ _action constructed = PULL /\
  (exists realm, _realm constructed = Some realm /\ truthy realm = true) /\
  (exists service, _service constructed = Some service) /\
  (exists creds, _bearer_creds constructed = Some creds) /\
  (exists exchange,
      [HttpCall InPing (ping_request agent busybox) None; RefreshCall;
       HttpCall InRefresh
                (refresh_request plain_urlencode agent "Basic dXNlcjpwYXNz"
                                 (repo PULL) "svc" auth_realm) None]
      = [HttpCall InPing (ping_request agent busybox) None; RefreshCall;
         HttpCall InRefresh exchange None]).
Proof.
  apply (constructed_transport_ready script scripted fixed_basic decode
           plain_urlencode agent busybox PULL
           [challenge_reply challenge_realm_service; token_reply] []).
  reflexivity.
Defined.

Lemma construction_succeeds_witness :
  Transport_new' busybox PULL [challenge_reply challenge_service_realm; token_reply] =
  ([],
   [HttpCall InPing (ping_request agent busybox) None; RefreshCall;
    HttpCall InRefresh
             (refresh_request plain_urlencode agent "Basic dXNlcjpwYXNz"
                              (repo PULL) "svc" auth_realm) None],
   Normal constructed).
Proof.
  apply (construction_succeeds script scripted fixed_basic decode
           plain_urlencode agent busybox PULL
           [challenge_reply challenge_service_realm; token_reply]
           [token_reply] [token_reply] []
           (fst (challenge_reply challenge_service_realm)) (fst token_reply)
           EmptyString token_body challenge_service_realm auth_realm "svc"
           "Basic dXNlcjpwYXNz" [("token", JString "abc123")] (JString "abc123")).
  - left. reflexivity.
  - reflexivity.
  - reflexivity.
  - reflexivity.
  - right. reflexivity.
  - reflexivity.
  - reflexivity.
  - reflexivity.
  - reflexivity.
  - reflexivity.
  - reflexivity.
  - reflexivity.
  - reflexivity.
Defined.

(** [Request] answered 200 at once, and answered 404 with the error body of
    the spec. *)
Lemma request_without_refresh_witness :
  Request' manifest_url (Some [200]) None None None None (world authed [ok_reply] [])
  = (world authed []
           [HttpCall InRequest (attempt' old_creds manifest_url "GET" None None None)
                     (Some old_creds)],
     Normal ok_reply) /\
  exists msg,
    snd (Request' manifest_url (Some [200]) None None None None
                  (world authed [not_found] []))
    = Raised (V2DiagnosticException (fst not_found)
                                    [mkDiagnostic (JObject error_fields)] msg).
Proof.
  split.
  - pose proof (request_without_refresh script scripted fixed_basic decode
                  plain_urlencode show show_response agent
                  (world authed [ok_reply] []) manifest_url (Some [200])
                  None None None None old_creds [] (fst ok_reply) (snd ok_reply)
                  eq_refl eq_refl) as H.
    cbv zeta in H. destruct H as (Hstate & Hok & _); [discriminate|].
    apply injective_projections; cbn [fst snd].
    + exact Hstate.
    + apply (Hok [200] eq_refl). left. reflexivity.
  - pose proof (request_without_refresh script scripted fixed_basic decode
                  plain_urlencode show show_response agent
                  (world authed [not_found] []) manifest_url (Some [200])
                  None None None None old_creds [] (fst not_found) (snd not_found)
                  eq_refl eq_refl) as H.
    cbv zeta in H. destruct H as (_ & _ & Hdiag); [discriminate|].
    apply (Hdiag [200] [mkDiagnostic (JObject error_fields)] eq_refl).
    + intros [H|[]]. discriminate H.
    + reflexivity.
    + reflexivity.
Defined.


Lemma request_keeps_binding_witness :
  this (fst (Request' manifest_url (Some [200]) None None None None
                      (world authed [ok_reply] []))) = authed.
Proof.
  apply (proj2 (request_keeps_binding script scripted fixed_basic decode
                  plain_urlencode show show_response agent
                  (world authed [ok_reply] []) manifest_url (Some [200])
                  None None None None)).
  reflexivity.
Defined.


Lemma diagnostic_error_constructor_witness :
  new_error' (fst unauthorized) "denied" =
  Normal (V2DiagnosticException (fst unauthorized) [synthetic "denied"]
            ("response: " ++ show_response (fst unauthorized) ++ nl ++
             "denied: None")).
Proof.
  apply (proj2 (diagnostic_error_constructor decode show show_response
                  (fst unauthorized) "denied")).
  reflexivity.
Defined.

(** The link header of the first sample page. *)
Lemma next_link_is_delimited_witness :
  exists link pre ws rest,
    dict_get "link" (resp_headers (fst page_one)) = Some link /\
    link = pre ++ "<" ++ catalog_next ++ ">;" ++ ws ++ rel_next ++ rest /\
    truthy catalog_next = true /\ has_char newline catalog_next = false /\
    all_chars (in_class Space) ws = true.
Proof.
  apply (next_link_is_delimited (fst page_one) catalog_next).
  reflexivity.
Defined.

Lemma next_link_of_single_entry_witness :
  ParseNextLinkHeader (fst page_one) = Some catalog_next.
Proof.
  apply (next_link_of_single_entry (fst page_one) catalog_next); reflexivity.
Defined.

(** A catalog of two pages, and one whose second page is refused. *)
Lemma pages_follow_links_witness :
  snd (pages' 3%nat (PaginatedRequest catalog_url (Some [200]) None None None)
              (world authed [page_one; page_two] []))
    = Normal (Some [page_one; page_two]) /\
  (exists ex,
      snd (pages' 3%nat (PaginatedRequest catalog_url (Some [200]) None None None)
                  (world authed [page_one; not_found] []))
      = Raised ex /\ is_diagnostic_error ex = true) /\
  pages' 1%nat (PaginatedRequest EmptyString (Some [200]) None None None)
         (world authed [page_one] [])
    = (world authed [page_one] [], Normal (Some [])).
Proof.
  pose (first_ := fun rest =>
    Request' catalog_url (Some [200]) None None None None
             (world authed (page_one :: rest) [])).
  pose (second_ := fun rest =>
    Request' catalog_next (Some [200]) None None None None (fst (first_ rest))).
  split; [|split].
  - rewrite (proj1 (pages_follow_links script scripted fixed_basic decode
                      plain_urlencode show show_response agent
                      (Some [200]) None None None
                      (world authed [page_one; page_two] []))
                   catalog_url [page_one; page_two]
                   (fst (second_ [page_two])) 3%nat).
    + reflexivity.
    + apply walk_more with (s1 := fst (first_ [page_two])) (u' := catalog_next);
        [reflexivity | reflexivity | reflexivity |].
      apply walk_last; reflexivity.
    + cbn. lia.
  - eexists.
    rewrite (proj1 (proj2 (pages_follow_links script scripted fixed_basic decode
                      plain_urlencode show show_response agent
                      (Some [200]) None None None
                      (world authed [page_one; not_found] [])))
                   catalog_url [page_one]
                   (fst (second_ [not_found]))
                   (V2DiagnosticException (fst not_found)
                      [mkDiagnostic (JObject error_fields)]
                      ("response: " ++ show_response (fst not_found) ++ nl ++ "m: d"))
                   3%nat).
    + split; reflexivity.
    + apply walk_more with (s1 := fst (first_ [not_found])) (u' := catalog_next);
        [reflexivity | reflexivity | reflexivity |].
      apply walk_fail; reflexivity.
    + cbn. lia.
  - apply (proj2 (proj2 (pages_follow_links script scripted fixed_basic decode
                      plain_urlencode show show_response agent
                      (Some [200]) None None None
                      (world authed [page_one] [])))).
Defined.

(** The first request on the object constructed against the sample
    registry. *)
Lemma first_request_after_construction_witness :
  exists creds evs,
    _bearer_creds constructed = Some creds /\
    trace (fst (Request' manifest_url (Some [200]) None None None None
                         (world constructed [ok_reply]
                                [HttpCall InPing (ping_request agent busybox) None;
                                 RefreshCall;
                                 HttpCall InRefresh
                                   (refresh_request plain_urlencode agent
                                      "Basic dXNlcjpwYXNz" (repo PULL) "svc"
                                      auth_realm) None]))) =
    ([HttpCall InPing (ping_request agent busybox) None; RefreshCall;
      HttpCall InRefresh
        (refresh_request plain_urlencode agent "Basic dXNlcjpwYXNz" (repo PULL)
                         "svc" auth_realm) None] ++
     HttpCall InRequest (attempt' creds manifest_url "GET" None None None)
              (Some creds) :: evs)%list.
Proof.
  apply (first_request_after_construction script scripted fixed_basic decode
           plain_urlencode show show_response agent busybox PULL
           [challenge_reply challenge_realm_service; token_reply; ok_reply]
           [ok_reply]).
  reflexivity.
Defined.
